(** * Attendance entry buffer of the teacher portal

    A shallow embedding of [src/components/teacher/TeacherAttendance.tsx]
    and of the attendance types of [src/services/teacher.service.ts].

    The React component keeps its state in [useState] cells; here the
    cells are the fields of [State], and every handler of the component is
    a computation in a small state-and-log monad: it reads and writes the
    cells and appends the calls it makes to the outside (service calls,
    toasts, console) to a log.  An [await] is modelled by handing the
    handler the outcome the awaited promise settles with, so a handler,
    continuation included, runs to completion before the next event is
    dispatched.  The part on requests in flight cuts each awaiting
    handler at its [await] instead and lets user events and settling
    requests interleave. *)

From Stdlib Require Import String List Bool.
From Stdlib Require Import Lia.
Import ListNotations.
Open Scope string_scope.
Open Scope list_scope.

(** * Data model *)

(** The status union ['PRESENT' | 'ABSENT' | 'LATE' | 'HALF_DAY' | 'EXCUSED']. *)
Inductive AttendanceStatus : Type :=
| PRESENT
| ABSENT
| LATE
| HALF_DAY
| EXCUSED.

Definition statusText (s : AttendanceStatus) : string :=
  match s with
  | PRESENT => "PRESENT"
  | ABSENT => "ABSENT"
  | LATE => "LATE"
  | HALF_DAY => "HALF_DAY"
  | EXCUSED => "EXCUSED"
  end.

(** A status as it sits in a JavaScript object at run time.  The response
    of the roster endpoint is JSON that is cast to its TypeScript type
    without validation, so a field that the type declares can still be
    [undefined]; [None] stands for [undefined]. *)
Definition JsStatus : Type := option AttendanceStatus.

(** [interface AttendanceStudent] of teacher.service.ts: one roster entry
    as the server sends it. *)
Module AttendanceStudent.
Record t : Type := mk {
    id : string;
    firstName : string;
    lastName : string;
    rollNumber : string;
    defaultStatus : JsStatus
  }.
End AttendanceStudent.

(** [interface StudentAttendance] of the component: one row of the buffer. *)
Module StudentAttendance.
Record t : Type := mk {
    id : string;
    rollNumber : string;
    firstName : string;
    lastName : string;
    status : JsStatus
  }.

(** The object spread [{ ...s, status }]. *)
Definition withStatus (s : t) (st : AttendanceStatus) : t :=
  {| id := id s;
     rollNumber := rollNumber s;
     firstName := firstName s;
     lastName := lastName s;
     status := Some st |}.
End StudentAttendance.

(** One element of [MarkAttendanceRequest.entries]. *)
Module Entry.
Record t : Type := mk {
    studentId : string;
    status : JsStatus;
    remarks : option string
  }.
End Entry.

(** [interface MarkAttendanceRequest]; an optional field that is left out
    (or set to [undefined]) is [None]. *)
Module MarkAttendanceRequest.
Record t : Type := mk {
    classId : string;
    sectionId : option string;
    attendanceDate : option string;
    allowOverride : option bool;
    entries : list Entry.t
  }.
End MarkAttendanceRequest.

(** [interface MarkAttendanceResponse]. *)
Module MarkAttendanceResponse.
Record t : Type := mk {
    message : string;
    markedCount : nat;
    attendanceDate : string
  }.
End MarkAttendanceResponse.

(** The elements of [classes] (typed [any[]] in the component); the
    fields are the ones the component reads. *)
Record SectionInfo : Type := {
  sectionId : string;
  sectionName : string
}.

Record ClassInfo : Type := {
  classId : string;
  className : string;
  sections : list SectionInfo
}.

(** What a rejected promise carries.  The component only asks whether it
    is an [ApiException]. *)
Inductive Thrown : Type :=
| ApiException (detail : string)
| OtherThrown (detail : string).

(** How an awaited promise settles. *)
Inductive Awaited (A : Type) : Type :=
| Resolved (value : A)
| Rejected (error : Thrown).
Arguments Resolved {A} value.
Arguments Rejected {A} error.

Definition isResolved {A : Type} (r : Awaited A) : bool :=
  match r with
  | Resolved _ => true
  | Rejected _ => false
  end.

(** Text handed to a toast.  [getUserFriendlyError] lives in utils/errors,
    so its result is kept symbolic. *)
Inductive Message : Type :=
| Text (s : string)
| UserFriendlyError (e : Thrown).

(** What a handler does to the outside world. *)
Inductive Effect : Type :=
| GetAssignedClasses
| GetAttendanceStudents (classId sectionId : string)
| MarkAttendance (data : MarkAttendanceRequest.t)
| ConsoleError (label : string) (e : Thrown)
| ToastError (m : Message)
| ToastSuccess (m : Message)
| ToastInfo (m : Message).

(** The service calls among the effects: each is one HTTP request. *)
Definition isRequest (e : Effect) : bool :=
  match e with
  | GetAssignedClasses | GetAttendanceStudents _ _ | MarkAttendance _ => true
  | _ => false
  end.

Definition isGetAttendanceStudents (e : Effect) : bool :=
  match e with
  | GetAttendanceStudents _ _ => true
  | _ => false
  end.

(** * Component state *)

(** The [useState] cells of [TeacherAttendance]. *)
Record State : Type := mkState {
  classes : list ClassInfo;
  selectedClassId : string;
  selectedSectionId : string;
  attendanceDate : string;
  students : list StudentAttendance.t;
  searchQuery : string;
  isSaving : bool;
  isLoading : bool;
  hasChanges : bool
}.

(** The initial values of the cells; [today] is
    [new Date().toISOString().split('T')[0]]. *)
Definition initialState (today : string) : State :=
  {| classes := [];
     selectedClassId := "";
     selectedSectionId := "";
     attendanceDate := today;
     students := [];
     searchQuery := "";
     isSaving := false;
     isLoading := false;
     hasChanges := false |}.

(** * Handler monad *)

Definition Handler (A : Type) : Type := State -> A * State * list Effect.

Definition ret {A : Type} (a : A) : Handler A :=
  fun st => (a, st, []).

Definition bind {A B : Type} (m : Handler A) (k : A -> Handler B) : Handler B :=
  fun st =>
    let '(a, st1, log1) := m st in
    let '(b, st2, log2) := k a st1 in
    (b, st2, log1 ++ log2).

Declare Scope handler_scope.
Delimit Scope handler_scope with handler.
Notation "x <- m ;; k" := (bind m (fun x => k))
  (at level 61, m at next level, right associativity) : handler_scope.
Notation "m ;; k" := (bind m (fun _ => k))
  (at level 61, right associativity) : handler_scope.
Open Scope handler_scope.

Definition read {A : Type} (cell : State -> A) : Handler A :=
  fun st => (cell st, st, []).

Definition perform (e : Effect) : Handler unit :=
  fun st => (tt, st, [e]).

Definition skip : Handler unit := ret tt.

Definition stateOf {A : Type} (r : A * State * list Effect) : State := snd (fst r).
Definition logOf {A : Type} (r : A * State * list Effect) : list Effect := snd r.

(** The state setters. *)
Definition setClasses (v : list ClassInfo) : Handler unit :=
  fun st => (tt, mkState v (selectedClassId st) (selectedSectionId st)
                   (attendanceDate st) (students st) (searchQuery st)
                   (isSaving st) (isLoading st) (hasChanges st), []).

Definition setSelectedClassId (v : string) : Handler unit :=
  fun st => (tt, mkState (classes st) v (selectedSectionId st)
                   (attendanceDate st) (students st) (searchQuery st)
                   (isSaving st) (isLoading st) (hasChanges st), []).

Definition setSelectedSectionId (v : string) : Handler unit :=
  fun st => (tt, mkState (classes st) (selectedClassId st) v
                   (attendanceDate st) (students st) (searchQuery st)
                   (isSaving st) (isLoading st) (hasChanges st), []).

Definition setAttendanceDate (v : string) : Handler unit :=
  fun st => (tt, mkState (classes st) (selectedClassId st) (selectedSectionId st)
                   v (students st) (searchQuery st)
                   (isSaving st) (isLoading st) (hasChanges st), []).

(** [setStudents] in its updater form [setStudents(prev => f(prev))]; the
    plain form [setStudents(v)] is [setStudents (fun _ => v)]. *)
Definition setStudents (f : list StudentAttendance.t -> list StudentAttendance.t)
  : Handler unit :=
  fun st => (tt, mkState (classes st) (selectedClassId st) (selectedSectionId st)
                   (attendanceDate st) (f (students st)) (searchQuery st)
                   (isSaving st) (isLoading st) (hasChanges st), []).

Definition setSearchQuery (v : string) : Handler unit :=
  fun st => (tt, mkState (classes st) (selectedClassId st) (selectedSectionId st)
                   (attendanceDate st) (students st) v
                   (isSaving st) (isLoading st) (hasChanges st), []).

Definition setIsSaving (v : bool) : Handler unit :=
  fun st => (tt, mkState (classes st) (selectedClassId st) (selectedSectionId st)
                   (attendanceDate st) (students st) (searchQuery st)
                   v (isLoading st) (hasChanges st), []).

Definition setIsLoading (v : bool) : Handler unit :=
  fun st => (tt, mkState (classes st) (selectedClassId st) (selectedSectionId st)
                   (attendanceDate st) (students st) (searchQuery st)
                   (isSaving st) v (hasChanges st), []).

Definition setHasChanges (v : bool) : Handler unit :=
  fun st => (tt, mkState (classes st) (selectedClassId st) (selectedSectionId st)
                   (attendanceDate st) (students st) (searchQuery st)
                   (isSaving st) (isLoading st) v, []).

(** JavaScript truthiness of a string: every string but the empty one. *)
Definition truthy (s : string) : bool := negb (String.eqb s "").

(** [x || []] for an array that may be missing. *)
Definition orEmpty {A : Type} (x : option (list A)) : list A :=
  match x with
  | Some l => l
  | None => []
  end.

(** * The handlers of the component *)

(** [loadStudents].  [response] is what
    [teacherService.getAttendanceStudents] settles with; the payload is
    [response.data?.students], [None] when [data] or [students] is
    missing. *)
Definition loadStudents
  (response : Awaited (option (list AttendanceStudent.t))) : Handler unit :=
  setIsLoading true ;;
  cls <- read selectedClassId ;;
  sec <- read selectedSectionId ;;
  perform (GetAttendanceStudents cls sec) ;;
  match response with
  | Resolved data =>
      let studentsData := orEmpty data in
      setStudents (fun _ =>
        map (fun s : AttendanceStudent.t =>
               {| StudentAttendance.id := AttendanceStudent.id s;
                  StudentAttendance.rollNumber := AttendanceStudent.rollNumber s;
                  StudentAttendance.firstName := AttendanceStudent.firstName s;
                  StudentAttendance.lastName := AttendanceStudent.lastName s;
                  StudentAttendance.status := AttendanceStudent.defaultStatus s |})
            studentsData)
  | Rejected error =>
      perform (ConsoleError "Failed to load students:" error) ;;
      perform (ToastError (Text "Failed to load students"))
  end ;;
  setIsLoading false.

(** [loadClasses].  The payload is [response.data?.classes]. *)
Definition loadClasses (response : Awaited (option (list ClassInfo)))
  : Handler unit :=
  perform GetAssignedClasses ;;
  match response with
  | Resolved data =>
      setClasses (orEmpty data) ;;
      match orEmpty data with
      | first :: _ => setSelectedClassId (classId first)
      | [] => skip
      end
  | Rejected error =>
      perform (ConsoleError "Failed to load classes:" error) ;;
      perform (ToastError (Text "Failed to load classes"))
  end.

(** [handleStatusChange]. *)
Definition handleStatusChange (studentId : string) (status : AttendanceStatus)
  : Handler unit :=
  setStudents (fun prev =>
    map (fun s => if String.eqb (StudentAttendance.id s) studentId
                  then StudentAttendance.withStatus s status
                  else s) prev) ;;
  setHasChanges true.

(** [handleMarkAll]. *)
Definition handleMarkAll (status : AttendanceStatus) : Handler unit :=
  setStudents (fun prev =>
    map (fun s => StudentAttendance.withStatus s status) prev) ;;
  setHasChanges true ;;
  perform (ToastInfo (Text ("Marked all students as " ++ statusText status))).

(** [handleSaveAttendance].  [response] is what
    [teacherService.markAttendance] settles with. *)
Definition handleSaveAttendance
  (response : Awaited MarkAttendanceResponse.t) : Handler unit :=
  cls <- read selectedClassId ;;
  if negb (truthy cls) then
    perform (ToastError (Text "Please select a class"))
  else
    setIsSaving true ;;
    sec <- read selectedSectionId ;;
    date <- read attendanceDate ;;
    studs <- read students ;;
    perform (MarkAttendance
      {| MarkAttendanceRequest.classId := cls;
         MarkAttendanceRequest.sectionId := if truthy sec then Some sec else None;
         MarkAttendanceRequest.attendanceDate := Some date;
         MarkAttendanceRequest.allowOverride := None;
         MarkAttendanceRequest.entries :=
           map (fun s => {| Entry.studentId := StudentAttendance.id s;
                            Entry.status := StudentAttendance.status s;
                            Entry.remarks := None |}) studs |}) ;;
    match response with
    | Resolved _ =>
        setHasChanges false ;;
        perform (ToastSuccess (Text "Attendance saved successfully!"))
    | Rejected error =>
        perform (ConsoleError "Failed to save attendance:" error) ;;
        perform (ToastError
          match error with
          | ApiException _ => UserFriendlyError error
          | OtherThrown _ => Text "Failed to save attendance"
          end)
    end ;;
    setIsSaving false.

(** * Wiring of the handlers to the rendered component *)

(** The Save button carries [disabled={!hasChanges || isSaving}]. *)
Definition saveDisabled (st : State) : bool :=
  negb (hasChanges st) || isSaving st.

(** A click on the Save button: a disabled button does not call its
    [onClick]. *)
Definition clickSave (response : Awaited MarkAttendanceResponse.t)
  : Handler unit :=
  disabled <- read saveDisabled ;;
  if disabled then skip else handleSaveAttendance response.

(** [useEffect(() => { if (selectedClassId) loadStudents() },
    [selectedClassId, selectedSectionId])]: after [h] has run, the effect
    fires when one of its two dependencies has changed. *)
Definition withStudentsEffect
  (response : Awaited (option (list AttendanceStudent.t)))
  (h : Handler unit) : Handler unit :=
  cls0 <- read selectedClassId ;;
  sec0 <- read selectedSectionId ;;
  h ;;
  cls1 <- read selectedClassId ;;
  sec1 <- read selectedSectionId ;;
  if String.eqb cls0 cls1 && String.eqb sec0 sec1 then skip
  else if truthy cls1 then loadStudents response
  else skip.

(** What can happen to the mounted component.  An event that can start a
    roster fetch carries the outcome of that fetch. *)
Inductive Event : Type :=
| Mounted (classesResponse : Awaited (option (list ClassInfo)))
          (studentsResponse : Awaited (option (list AttendanceStudent.t)))
| ClassSelected (value : string)
                (studentsResponse : Awaited (option (list AttendanceStudent.t)))
| SectionSelected (value : string)
                  (studentsResponse : Awaited (option (list AttendanceStudent.t)))
| DateChanged (value : string)
| SearchTyped (value : string)
| StatusChecked (studentId : string) (status : AttendanceStatus)
| MarkAllClicked (status : AttendanceStatus)
| SaveClicked (response : Awaited MarkAttendanceResponse.t).

Definition dispatch (ev : Event) : Handler unit :=
  match ev with
  | Mounted classesResponse studentsResponse =>
      withStudentsEffect studentsResponse (loadClasses classesResponse)
  | ClassSelected value studentsResponse =>
      withStudentsEffect studentsResponse
        (setSelectedClassId value ;; setSelectedSectionId "")
  | SectionSelected value studentsResponse =>
      withStudentsEffect studentsResponse (setSelectedSectionId value)
  | DateChanged value => setAttendanceDate value
  | SearchTyped value => setSearchQuery value
  | StatusChecked studentId status => handleStatusChange studentId status
  | MarkAllClicked status => handleMarkAll status
  | SaveClicked response => clickSave response
  end.

(** * What the server has confirmed

    The specification speaks of the last value the server confirmed for a
    record, of records the user has touched, and of earlier submissions
    for a context.  The component stores none of these; they are facts
    about the history of the session.  [History] records them next to the
    component state, following the words of the specification, so that
    they can be compared with what the component does keep. *)

(** The context of a submission: class, section and date of the request. *)
Definition Context : Type := (string * option string * option string)%type.

Definition contextOf (r : MarkAttendanceRequest.t) : Context :=
  (MarkAttendanceRequest.classId r,
   MarkAttendanceRequest.sectionId r,
   MarkAttendanceRequest.attendanceDate r).

Definition option_eqb {A : Type} (eqb : A -> A -> bool) (x y : option A) : bool :=
  match x, y with
  | Some a, Some b => eqb a b
  | None, None => true
  | _, _ => false
  end.

Definition context_eqb (a b : Context) : bool :=
  let '(c1, s1, d1) := a in
  let '(c2, s2, d2) := b in
  String.eqb c1 c2 && option_eqb String.eqb s1 s2 && option_eqb String.eqb d1 d2.

Record History : Type := mkHistory {
  (** the rows as the server last confirmed them: the roster defaults of
      the last load, or the rows of the last accepted submission *)
  confirmed : list StudentAttendance.t;
  (** the students edited since the last load or accepted submission *)
  touched : list string;
  (** the contexts for which the server has accepted a submission *)
  submitted : list Context
}.

Definition noHistory : History :=
  {| confirmed := []; touched := []; submitted := [] |}.

Definition sentRequests (log : list Effect) : list MarkAttendanceRequest.t :=
  flat_map (fun e => match e with
                     | MarkAttendance r => [r]
                     | _ => []
                     end) log.

Definition hasStudent (st : State) (studentId : string) : bool :=
  existsb (fun s => String.eqb (StudentAttendance.id s) studentId) (students st).

(** The roster fetch an event carries settled successfully. *)
Definition rosterArrived (ev : Event) (log : list Effect) : bool :=
  existsb isGetAttendanceStudents log &&
  match ev with
  | Mounted _ r | ClassSelected _ r | SectionSelected _ r => isResolved r
  | _ => false
  end.

(** [record ev before after log h]: the history after event [ev] took the
    component from [before] to [after] with effects [log]. *)
Definition record (ev : Event) (before after : State) (log : list Effect)
  (h : History) : History :=
  if rosterArrived ev log then
    {| confirmed := students after; touched := []; submitted := submitted h |}
  else
    match ev with
    | StatusChecked studentId _ =>
        {| confirmed := confirmed h;
           touched := if hasStudent before studentId
                      then studentId :: touched h else touched h;
           submitted := submitted h |}
    | MarkAllClicked _ =>
        {| confirmed := confirmed h;
           touched := map StudentAttendance.id (students before) ++ touched h;
           submitted := submitted h |}
    | SaveClicked (Resolved _) =>
        match sentRequests log with
        | [] => h
        | reqs =>
            {| confirmed := students before;
               touched := [];
               submitted := map contextOf reqs ++ submitted h |}
        end
    | _ => h
    end.

(** A session: the component state, the history beside it, and all the
    effects so far. *)
Record Session : Type := mkSession {
  state : State;
  history : History;
  effects : list Effect
}.

Definition start (today : string) : Session :=
  {| state := initialState today; history := noHistory; effects := [] |}.

Definition step (s : Session) (ev : Event) : Session :=
  let r := dispatch ev (state s) in
  {| state := stateOf r;
     history := record ev (state s) (stateOf r) (logOf r) (history s);
     effects := effects s ++ logOf r |}.

Definition session (today : string) (evs : list Event) : Session :=
  fold_left step evs (start today).

(** A row is dirty in the sense of the specification when the user has
    touched it since the last load or accepted submission. *)
Definition touchedRow (h : History) (s : StudentAttendance.t) : bool :=
  existsb (String.eqb (StudentAttendance.id s)) (touched h).

(** [dirtyEntries] in the sense of the specification: the rows of the
    buffer, in order, that are dirty. *)
Definition dirtyEntries (s : Session) : list StudentAttendance.t :=
  filter (touchedRow (history s)) (students (state s)).

(** A context has a prior submission when the server has accepted one. *)
Definition priorSubmissionExists (h : History) (c : Context) : bool :=
  existsb (context_eqb c) (submitted h).

(** * Running the handlers *)

(** The row [loadStudents] builds from a roster entry. *)
Definition rowOf (s : AttendanceStudent.t) : StudentAttendance.t :=
  {| StudentAttendance.id := AttendanceStudent.id s;
     StudentAttendance.rollNumber := AttendanceStudent.rollNumber s;
     StudentAttendance.firstName := AttendanceStudent.firstName s;
     StudentAttendance.lastName := AttendanceStudent.lastName s;
     StudentAttendance.status := AttendanceStudent.defaultStatus s |}.

(** The entry [handleSaveAttendance] builds from a row. *)
Definition entryOf (s : StudentAttendance.t) : Entry.t :=
  {| Entry.studentId := StudentAttendance.id s;
     Entry.status := StudentAttendance.status s;
     Entry.remarks := None |}.

(** The request [handleSaveAttendance] sends from state [st]. *)
Definition requestOf (st : State) : MarkAttendanceRequest.t :=
  {| MarkAttendanceRequest.classId := selectedClassId st;
     MarkAttendanceRequest.sectionId :=
       if truthy (selectedSectionId st) then Some (selectedSectionId st) else None;
     MarkAttendanceRequest.attendanceDate := Some (attendanceDate st);
     MarkAttendanceRequest.allowOverride := None;
     MarkAttendanceRequest.entries := map entryOf (students st) |}.

(** * Sample data

    A small class list and rosters, used to run the handlers on concrete
    inputs. *)

Definition sampleClasses : list ClassInfo :=
  [ {| classId := "c1"; className := "Grade 5"; sections := [] |};
    {| classId := "c2"; className := "Grade 6"; sections := [] |} ].

Definition sampleRoster : list AttendanceStudent.t :=
  [ AttendanceStudent.mk "s1" "Amna" "Khan" "01" (Some PRESENT);
    AttendanceStudent.mk "s2" "Bilal" "Raza" "02" (Some PRESENT) ].

(** A roster whose second entry comes without [defaultStatus]. *)
Definition partialRoster : list AttendanceStudent.t :=
  [ AttendanceStudent.mk "s1" "Amna" "Khan" "01" (Some PRESENT);
    AttendanceStudent.mk "s2" "Bilal" "Raza" "02" None ].

Definition otherRoster : list AttendanceStudent.t :=
  [ AttendanceStudent.mk "t1" "Sara" "Ali" "01" (Some PRESENT);
    AttendanceStudent.mk "t2" "Omar" "Zia" "02" (Some ABSENT) ].

Definition accepted : Awaited MarkAttendanceResponse.t :=
  Resolved {| MarkAttendanceResponse.message := "Attendance marked";
              MarkAttendanceResponse.markedCount := 2;
              MarkAttendanceResponse.attendanceDate := "2026-01-15" |}.

(** The component after mounting: the class list has arrived, the first
    class is selected and its roster is loaded. *)
Definition mounted (roster : list AttendanceStudent.t) : Event :=
  Mounted (Resolved (Some sampleClasses)) (Resolved (Some roster)).

Definition loadedSession : Session :=
  session "2026-01-15" [mounted sampleRoster].

(** * What a render derives from the state *)

(** [s.status === x], a strict comparison: a missing status equals none. *)
Definition statusIs (x : AttendanceStatus) (s : StudentAttendance.t) : bool :=
  match StudentAttendance.status s, x with
  | Some PRESENT, PRESENT | Some ABSENT, ABSENT | Some LATE, LATE
  | Some HALF_DAY, HALF_DAY | Some EXCUSED, EXCUSED => true
  | _, _ => false
  end.

(** The [stats] object of the component. *)
Module Stats.
Record t : Type := mk {
    total : nat;
    present : nat;
    absent : nat;
    late : nat;
    leave : nat
  }.
End Stats.

Definition stats (st : State) : Stats.t :=
  {| Stats.total := List.length (students st);
     Stats.present := List.length (filter (statusIs PRESENT) (students st));
     Stats.absent := List.length (filter (statusIs ABSENT) (students st));
     Stats.late := List.length (filter (statusIs LATE) (students st));
     Stats.leave := List.length (filter (statusIs EXCUSED) (students st)) |}.

(** [s.includes(sub)]: [sub] occurs in [s] as a run of consecutive
    characters.  The characters of a string stand for its code units. *)
Fixpoint includes (s sub : string) : bool :=
  String.prefix sub s ||
  match s with
  | EmptyString => false
  | String _ rest => includes rest sub
  end.

Section Search.

(** [String.prototype.toLowerCase] follows the Unicode case mapping; it
    is left open here, and what is proved holds for any mapping. *)
Variable toLowerCase : string -> string.

(** The predicate of [filteredStudents]. *)
Definition matchesSearch (query : string) (student : StudentAttendance.t) : bool :=
  includes
    (toLowerCase (StudentAttendance.firstName student ++ " "
                  ++ StudentAttendance.lastName student))
    (toLowerCase query)
  || includes (StudentAttendance.rollNumber student) query.

(** [filteredStudents]: the rows the table shows. *)
Definition filteredStudents (st : State) : list StudentAttendance.t :=
  filter (matchesSearch (searchQuery st)) (students st).

End Search.

(** The statuses the controls of the page can pass to the handlers: the
    row checkboxes call [handleStatusChange] with PRESENT, ABSENT, LATE
    or EXCUSED, the quick-mark buttons call [handleMarkAll] with PRESENT
    or ABSENT. *)
Definition offeredByControls (ev : Event) : bool :=
  match ev with
  | StatusChecked _ status =>
      match status with
      | PRESENT | ABSENT | LATE | EXCUSED => true
      | HALF_DAY => false
      end
  | MarkAllClicked status =>
      match status with
      | PRESENT | ABSENT => true
      | _ => false
      end
  | _ => true
  end.

(** The events that edit the buffer. *)
Definition isEdit (ev : Event) : bool :=
  match ev with
  | StatusChecked _ _ | MarkAllClicked _ => true
  | _ => false
  end.

(** A request as the component is meant to send it: a roster fetch names
    a class; a save names a class, names a section only when one is
    selected, carries a date and leaves [allowOverride] out. *)
Definition wellFormedRequest (e : Effect) : bool :=
  match e with
  | GetAttendanceStudents cls _ => truthy cls
  | MarkAttendance r =>
      truthy (MarkAttendanceRequest.classId r)
      && match MarkAttendanceRequest.sectionId r with
         | Some sec => truthy sec
         | None => true
         end
      && match MarkAttendanceRequest.attendanceDate r with
         | Some _ => true
         | None => false
         end
      && match MarkAttendanceRequest.allowOverride r with
         | None => true
         | Some _ => false
         end
      && forallb (fun e => match Entry.remarks e with
                           | None => true
                           | Some _ => false
                           end) (MarkAttendanceRequest.entries r)
  | _ => true
  end.

(** The first row with a given id. *)
Definition findStudent (studentId : string) (rows : list StudentAttendance.t)
  : option StudentAttendance.t :=
  find (fun s => String.eqb (StudentAttendance.id s) studentId) rows.

(** The rows that [stats] counts in [total] only: a HALF_DAY row and a
    row without status fall into none of the four categories. *)
Definition uncounted (s : StudentAttendance.t) : bool :=
  match StudentAttendance.status s with
  | Some HALF_DAY | None => true
  | _ => false
  end.

(** The map [handleStatusChange] applies to the rows. *)
Definition changeStatus (studentId : string) (status : AttendanceStatus)
  (s : StudentAttendance.t) : StudentAttendance.t :=
  if String.eqb (StudentAttendance.id s) studentId
  then StudentAttendance.withStatus s status
  else s.

(** A HALF_DAY row is the very row the server last confirmed at its
    position. *)
Definition halfDayFromServer (s : Session) : Prop :=
  Forall2
    (fun row sent =>
       StudentAttendance.status row = Some HALF_DAY -> row = sent)
    (students (state s)) (confirmed (history s)).

Ltac split_conditions :=
  repeat match goal with
         | |- context [String.eqb ?a ?b] => destruct (String.eqb a b) eqn:?; cbn
         | |- context [truthy ?a] => destruct (truthy a) eqn:?; cbn
         end.

(** The class list a [getAssignedClasses] response yields:
    [response.data?.classes || []], and nothing when the call fails. *)
Definition classesOf (response : Awaited (option (list ClassInfo)))
  : list ClassInfo :=
  match response with
  | Resolved data => orEmpty data
  | Rejected _ => []
  end.

(** Two rows are rows of the same student: they agree on everything but
    the status. *)
Definition sameStudent (row sent : StudentAttendance.t) : Prop :=
  StudentAttendance.id row = StudentAttendance.id sent /\
  StudentAttendance.rollNumber row = StudentAttendance.rollNumber sent /\
  StudentAttendance.firstName row = StudentAttendance.firstName sent /\
  StudentAttendance.lastName row = StudentAttendance.lastName sent.

(** * The assignments page

    [src/components/teacher/TeacherAssignments.tsx]: the create dialog
    and the loading of the page, which call [getAssignments],
    [getAssignmentStatistics], [getAssignedClasses] and
    [createAssignment] of the teacher service. *)

Module Assignments.

(** The form behind the create dialog ([newAssignment]); every field is
    the text of an input. *)
Record NewAssignment : Type := mkNewAssignment {
  classId : string;
  sectionId : string;
  subjectId : string;
  title : string;
  dueDate : string;
  totalMarks : string;
  description : string
}.

(** The blank form the dialog starts with and is reset to. *)
Definition blank : NewAssignment :=
  {| classId := ""; sectionId := ""; subjectId := ""; title := "";
     dueDate := ""; totalMarks := ""; description := "" |}.

(** The elements of [classes] as the dialog reads them. *)
Record SubjectInfo : Type := {
  subjectIdOf : string;
  subjectName : string
}.

Record ClassEntry : Type := {
  classIdOf : string;
  classNameOf : string;
  subjects : option (list SubjectInfo)
}.

Section Page.

(** [Assignment] and the statistics object are only stored and shown.
    [JsNumber] is a JavaScript number and [parseFloat] the built-in;
    [toISOString d] is [new Date(d).toISOString()], which throws a
    RangeError on a text that is no date: [None]. *)
Variables Assignment Statistics JsNumber : Type.
Variable parseFloat : string -> JsNumber.
Variable toISOString : string -> option string.

(** [interface CreateAssignmentRequest]. *)
Record CreateAssignmentRequest : Type := mkRequest {
  reqClassId : string;
  reqSectionId : option string;
  reqSubjectId : string;
  reqTitle : string;
  reqDescription : option string;
  reqDueDate : option string;
  reqTotalMarks : JsNumber
}.

(** The [useState] cells of [TeacherAssignments]. *)
Record State : Type := mkState {
  assignments : list Assignment;
  loading : bool;
  statistics : option Statistics;
  isCreateDialogOpen : bool;
  isCreating : bool;
  newAssignment : NewAssignment;
  classes : list ClassEntry
}.

Inductive Effect : Type :=
| GetAssignments (page limit : nat)
| GetAssignmentStatistics
| GetAssignedClasses
| CreateAssignment (data : CreateAssignmentRequest)
| ConsoleError (label : string) (e : Thrown)
| ToastError (m : Message)
| ToastSuccess (m : Message).

Definition isRequest (e : Effect) : bool :=
  match e with
  | GetAssignments _ _ | GetAssignmentStatistics | GetAssignedClasses
  | CreateAssignment _ => true
  | _ => false
  end.

(** What the three responses awaited together ([Promise.all]) carry:
    [assignmentsRes.data?.assignments], [statsRes.data] and
    [classesRes.data?.classes]. *)
Record Loaded : Type := mkLoaded {
  assignmentsData : option (list Assignment);
  statisticsData : option Statistics;
  classesData : option (list ClassEntry)
}.

Definition Handler (A : Type) : Type := State -> A * State * list Effect.

Definition ret {A : Type} (a : A) : Handler A :=
  fun st => (a, st, []).

Definition bind {A B : Type} (m : Handler A) (k : A -> Handler B) : Handler B :=
  fun st =>
    let '(a, st1, log1) := m st in
    let '(b, st2, log2) := k a st1 in
    (b, st2, log1 ++ log2).

Local Notation "x <- m ;; k" := (bind m (fun x => k))
  (at level 61, m at next level, right associativity).
Local Notation "m ;; k" := (bind m (fun _ => k))
  (at level 61, right associativity).

Definition read {A : Type} (cell : State -> A) : Handler A :=
  fun st => (cell st, st, []).

Definition perform (e : Effect) : Handler unit :=
  fun st => (tt, st, [e]).

Definition stateOf {A : Type} (r : A * State * list Effect) : State := snd (fst r).
Definition logOf {A : Type} (r : A * State * list Effect) : list Effect := snd r.

Definition setAssignments (v : list Assignment) : Handler unit :=
  fun st => (tt, mkState v (loading st) (statistics st) (isCreateDialogOpen st)
                   (isCreating st) (newAssignment st) (classes st), []).

Definition setLoading (v : bool) : Handler unit :=
  fun st => (tt, mkState (assignments st) v (statistics st) (isCreateDialogOpen st)
                   (isCreating st) (newAssignment st) (classes st), []).

Definition setStatistics (v : option Statistics) : Handler unit :=
  fun st => (tt, mkState (assignments st) (loading st) v (isCreateDialogOpen st)
                   (isCreating st) (newAssignment st) (classes st), []).

Definition setIsCreateDialogOpen (v : bool) : Handler unit :=
  fun st => (tt, mkState (assignments st) (loading st) (statistics st) v
                   (isCreating st) (newAssignment st) (classes st), []).

Definition setIsCreating (v : bool) : Handler unit :=
  fun st => (tt, mkState (assignments st) (loading st) (statistics st)
                   (isCreateDialogOpen st) v (newAssignment st) (classes st), []).

Definition setNewAssignment (v : NewAssignment) : Handler unit :=
  fun st => (tt, mkState (assignments st) (loading st) (statistics st)
                   (isCreateDialogOpen st) (isCreating st) v (classes st), []).

Definition setClasses (v : list ClassEntry) : Handler unit :=
  fun st => (tt, mkState (assignments st) (loading st) (statistics st)
                   (isCreateDialogOpen st) (isCreating st) (newAssignment st) v, []).

(** The message of the error toasts:
    [error instanceof ApiException ? getUserFriendlyError(error) : fallback]. *)
Definition errorMessage (e : Thrown) (fallback : string) : Message :=
  match e with
  | ApiException _ => UserFriendlyError e
  | OtherThrown _ => Text fallback
  end.

(** [loadData].  [all] is what the [Promise.all] of the three service
    calls settles with. *)
Definition loadData (all : Awaited Loaded) : Handler unit :=
  setLoading true ;;
  perform (GetAssignments 1 50) ;;
  perform GetAssignmentStatistics ;;
  perform GetAssignedClasses ;;
  match all with
  | Resolved res =>
      setAssignments (orEmpty (assignmentsData res)) ;;
      setStatistics (statisticsData res) ;;
      setClasses (orEmpty (classesData res))
  | Rejected error =>
      perform (ConsoleError "Failed to load assignments:" error) ;;
      perform (ToastError (errorMessage error "Failed to load assignments"))
  end ;;
  setLoading false.

(** [handleCreateAssignment].  [created] is what
    [teacherService.createAssignment] settles with and [reloaded] what the
    [loadData] started after a success settles with.  [loadData] is not
    awaited: its requests go out before the [finally] block runs, and
    nothing else is logged in between. *)
Definition handleCreateAssignment
  (created : Awaited Assignment) (reloaded : Awaited Loaded) : Handler unit :=
  form <- read newAssignment ;;
  if negb (truthy (title form)) || negb (truthy (classId form))
     || negb (truthy (subjectId form)) || negb (truthy (totalMarks form))
  then perform (ToastError (Text "Please fill all required fields"))
  else
    setIsCreating true ;;
    match (if truthy (dueDate form)
           then option_map Some (toISOString (dueDate form))
           else Some None) with
    | None =>
        let error := OtherThrown "Invalid time value" in
        perform (ConsoleError "Failed to create assignment:" error) ;;
        perform (ToastError (errorMessage error "Failed to create assignment"))
    | Some due =>
        perform (CreateAssignment
          {| reqClassId := classId form;
             reqSectionId := if truthy (sectionId form)
                             then Some (sectionId form) else None;
             reqSubjectId := subjectId form;
             reqTitle := title form;
             reqDescription := if truthy (description form)
                               then Some (description form) else None;
             reqDueDate := due;
             reqTotalMarks := parseFloat (totalMarks form) |}) ;;
        match created with
        | Resolved _ =>
            setIsCreateDialogOpen false ;;
            setNewAssignment blank ;;
            perform (ToastSuccess (Text "Assignment created successfully!")) ;;
            loadData reloaded
        | Rejected error =>
            perform (ConsoleError "Failed to create assignment:" error) ;;
            perform (ToastError (errorMessage error "Failed to create assignment"))
        end
    end ;;
    setIsCreating false.

(** The class select of the dialog:
    [classes.find(c => c.classId === value)] and then
    [selectedClass?.subjects?.[0]?.subjectId || '']. *)
Definition firstSubjectOf (value : string) (cls : list ClassEntry) : string :=
  match find (fun c => String.eqb (classIdOf c) value) cls with
  | Some c =>
      match subjects c with
      | Some (first :: _) => subjectIdOf first
      | _ => ""
      end
  | None => ""
  end.

Definition chooseClass (value : string) : Handler unit :=
  form <- read newAssignment ;;
  cls <- read classes ;;
  setNewAssignment
    {| classId := value;
       sectionId := sectionId form;
       subjectId := firstSubjectOf value cls;
       title := title form;
       dueDate := dueDate form;
       totalMarks := totalMarks form;
       description := description form |}.

(** The create requests among the effects. *)
Definition created (log : list Effect) : list CreateAssignmentRequest :=
  flat_map (fun e => match e with
                     | CreateAssignment r => [r]
                     | _ => []
                     end) log.

(** All required fields of the form are filled in. *)
Definition complete (form : NewAssignment) : bool :=
  truthy (title form) && truthy (classId form)
  && truthy (subjectId form) && truthy (totalMarks form).

End Page.

Arguments assignments {Assignment Statistics} s.
Arguments loading {Assignment Statistics} s.
Arguments statistics {Assignment Statistics} s.
Arguments isCreateDialogOpen {Assignment Statistics} s.
Arguments isCreating {Assignment Statistics} s.
Arguments newAssignment {Assignment Statistics} s.
Arguments classes {Assignment Statistics} s.
Arguments reqClassId {JsNumber} c.
Arguments reqSectionId {JsNumber} c.
Arguments reqSubjectId {JsNumber} c.
Arguments reqTitle {JsNumber} c.
Arguments reqDescription {JsNumber} c.
Arguments reqDueDate {JsNumber} c.
Arguments reqTotalMarks {JsNumber} c.
Arguments GetAssignments {JsNumber} page limit.
Arguments GetAssignmentStatistics {JsNumber}.
Arguments GetAssignedClasses {JsNumber}.
Arguments CreateAssignment {JsNumber} data.
Arguments ConsoleError {JsNumber} label e.
Arguments ToastError {JsNumber} m.
Arguments ToastSuccess {JsNumber} m.
Arguments isRequest {JsNumber} e.
Arguments assignmentsData {Assignment Statistics} l.
Arguments statisticsData {Assignment Statistics} l.
Arguments classesData {Assignment Statistics} l.
Arguments stateOf {Assignment Statistics JsNumber A} r.
Arguments logOf {Assignment Statistics JsNumber A} r.
Arguments loadData {Assignment Statistics JsNumber} all st.
Arguments handleCreateAssignment {Assignment Statistics JsNumber}
  parseFloat toISOString created reloaded st.
Arguments chooseClass {Assignment Statistics JsNumber} value st.
Arguments created {JsNumber} log.

End Assignments.

(** * Requests in flight

    A handler that awaits a request runs in two parts: the part up to
    the [await], and the continuation that runs when the request settles.
    Between the two the page stays live: only the Save button is disabled
    while a save is pending, the checkboxes and the quick-mark buttons are
    not.  Here each such handler is cut at its [await], and a run of the
    page is a sequence of ticks: what the user does, and the settling of
    requests that are in flight. *)

(** [loadStudents] up to its [await]. *)
Definition loadStudents_begin : Handler unit :=
  setIsLoading true ;;
  cls <- read selectedClassId ;;
  sec <- read selectedSectionId ;;
  perform (GetAttendanceStudents cls sec).

(** [loadStudents] from its [await] on. *)
Definition loadStudents_resume
  (response : Awaited (option (list AttendanceStudent.t))) : Handler unit :=
  match response with
  | Resolved data =>
      let studentsData := orEmpty data in
      setStudents (fun _ =>
        map (fun s : AttendanceStudent.t =>
               {| StudentAttendance.id := AttendanceStudent.id s;
                  StudentAttendance.rollNumber := AttendanceStudent.rollNumber s;
                  StudentAttendance.firstName := AttendanceStudent.firstName s;
                  StudentAttendance.lastName := AttendanceStudent.lastName s;
                  StudentAttendance.status := AttendanceStudent.defaultStatus s |})
            studentsData)
  | Rejected error =>
      perform (ConsoleError "Failed to load students:" error) ;;
      perform (ToastError (Text "Failed to load students"))
  end ;;
  setIsLoading false.

(** [loadClasses] up to its [await], and from it on. *)
Definition loadClasses_begin : Handler unit :=
  perform GetAssignedClasses.

Definition loadClasses_resume (response : Awaited (option (list ClassInfo)))
  : Handler unit :=
  match response with
  | Resolved data =>
      setClasses (orEmpty data) ;;
      match orEmpty data with
      | first :: _ => setSelectedClassId (classId first)
      | [] => skip
      end
  | Rejected error =>
      perform (ConsoleError "Failed to load classes:" error) ;;
      perform (ToastError (Text "Failed to load classes"))
  end.

(** [handleSaveAttendance] up to its [await]; the result tells whether
    the request went out (the guard on the class returns before it). *)
Definition handleSaveAttendance_begin : Handler bool :=
  cls <- read selectedClassId ;;
  if negb (truthy cls) then
    perform (ToastError (Text "Please select a class")) ;;
    ret false
  else
    setIsSaving true ;;
    sec <- read selectedSectionId ;;
    date <- read attendanceDate ;;
    studs <- read students ;;
    perform (MarkAttendance
      {| MarkAttendanceRequest.classId := cls;
         MarkAttendanceRequest.sectionId := if truthy sec then Some sec else None;
         MarkAttendanceRequest.attendanceDate := Some date;
         MarkAttendanceRequest.allowOverride := None;
         MarkAttendanceRequest.entries :=
           map (fun s => {| Entry.studentId := StudentAttendance.id s;
                            Entry.status := StudentAttendance.status s;
                            Entry.remarks := None |}) studs |}) ;;
    ret true.

(** [handleSaveAttendance] from its [await] on. *)
Definition handleSaveAttendance_resume
  (response : Awaited MarkAttendanceResponse.t) : Handler unit :=
  match response with
  | Resolved _ =>
      setHasChanges false ;;
      perform (ToastSuccess (Text "Attendance saved successfully!"))
  | Rejected error =>
      perform (ConsoleError "Failed to save attendance:" error) ;;
      perform (ToastError
        match error with
        | ApiException _ => UserFriendlyError error
        | OtherThrown _ => Text "Failed to save attendance"
        end)
  end ;;
  setIsSaving false.

(** A click on the Save button, up to the [await]. *)
Definition clickSave_begin : Handler bool :=
  disabled <- read saveDisabled ;;
  if disabled then ret false else handleSaveAttendance_begin.

(** The roster effect after [h] has run; when it fires, [loadStudents]
    starts and the result is [true]. *)
Definition studentsEffect_begin (h : Handler unit) : Handler bool :=
  cls0 <- read selectedClassId ;;
  sec0 <- read selectedSectionId ;;
  h ;;
  cls1 <- read selectedClassId ;;
  sec1 <- read selectedSectionId ;;
  if String.eqb cls0 cls1 && String.eqb sec0 sec1 then ret false
  else if truthy cls1 then loadStudents_begin ;; ret true
  else ret false.

(** What can happen to the live page: the user acts, or a request in
    flight settles.  Roster and class-list continuations do not depend on
    which request they belong to, so only their number is kept; a save in
    flight is picked by its position. *)
Inductive Tick : Type :=
| Mounts
| SelectsClass (value : string)
| SelectsSection (value : string)
| ChangesDate (value : string)
| TypesSearch (value : string)
| ChecksStatus (studentId : string) (status : AttendanceStatus)
| MarksAll (status : AttendanceStatus)
| ClicksSave
| ClassesSettle (response : Awaited (option (list ClassInfo)))
| RosterSettles (response : Awaited (option (list AttendanceStudent.t)))
| SaveSettles (n : nat) (response : Awaited MarkAttendanceResponse.t).

Definition isEditTick (t : Tick) : bool :=
  match t with
  | ChecksStatus _ _ | MarksAll _ => true
  | _ => false
  end.

(** A save in flight: the rows its request carries, and whether a roster
    has replaced the buffer since it was sent. *)
Record PendingSave : Type := mkPendingSave {
  sent : list StudentAttendance.t;
  replaced : bool
}.

(** The live page: the component state, the rows as the server last
    confirmed them (the roster of the last load, or the rows of the last
    accepted save of that roster), the requests in flight and the effects
    so far. *)
Record Live : Type := mkLive {
  now : State;
  serverRows : list StudentAttendance.t;
  classesInFlight : nat;
  rostersInFlight : nat;
  savesInFlight : list PendingSave;
  heard : list Effect
}.

Definition boot (today : string) : Live :=
  {| now := initialState today;
     serverRows := [];
     classesInFlight := 0;
     rostersInFlight := 0;
     savesInFlight := [];
     heard := [] |}.

Fixpoint dropNth {A : Type} (n : nat) (l : list A) : list A :=
  match l, n with
  | [], _ => []
  | _ :: rest, 0 => rest
  | x :: rest, S m => x :: dropNth m rest
  end.

(** A handler part that only changes the state and may start a roster
    fetch. *)
Definition afterPart (l : Live) (r : bool * State * list Effect) : Live :=
  {| now := stateOf r;
     serverRows := serverRows l;
     classesInFlight := classesInFlight l;
     rostersInFlight := if fst (fst r) then S (rostersInFlight l)
                        else rostersInFlight l;
     savesInFlight := savesInFlight l;
     heard := heard l ++ logOf r |}.

Definition advance (l : Live) (t : Tick) : Live :=
  match t with
  | Mounts =>
      let r := loadClasses_begin (now l) in
      {| now := stateOf r;
         serverRows := serverRows l;
         classesInFlight := S (classesInFlight l);
         rostersInFlight := rostersInFlight l;
         savesInFlight := savesInFlight l;
         heard := heard l ++ logOf r |}
  | SelectsClass value =>
      afterPart l (studentsEffect_begin
                     (setSelectedClassId value ;; setSelectedSectionId "") (now l))
  | SelectsSection value =>
      afterPart l (studentsEffect_begin (setSelectedSectionId value) (now l))
  | ChangesDate value =>
      afterPart l ((setAttendanceDate value ;; ret false) (now l))
  | TypesSearch value =>
      afterPart l ((setSearchQuery value ;; ret false) (now l))
  | ChecksStatus studentId status =>
      afterPart l ((handleStatusChange studentId status ;; ret false) (now l))
  | MarksAll status =>
      afterPart l ((handleMarkAll status ;; ret false) (now l))
  | ClicksSave =>
      let r := clickSave_begin (now l) in
      {| now := stateOf r;
         serverRows := serverRows l;
         classesInFlight := classesInFlight l;
         rostersInFlight := rostersInFlight l;
         savesInFlight :=
           if fst (fst r)
           then {| sent := students (now l); replaced := false |} :: savesInFlight l
           else savesInFlight l;
         heard := heard l ++ logOf r |}
  | ClassesSettle response =>
      match classesInFlight l with
      | 0 => l
      | S n =>
          let r := studentsEffect_begin (loadClasses_resume response) (now l) in
          {| now := stateOf r;
             serverRows := serverRows l;
             classesInFlight := n;
             rostersInFlight := if fst (fst r) then S (rostersInFlight l)
                                else rostersInFlight l;
             savesInFlight := savesInFlight l;
             heard := heard l ++ logOf r |}
      end
  | RosterSettles response =>
      match rostersInFlight l with
      | 0 => l
      | S n =>
          let r := loadStudents_resume response (now l) in
          {| now := stateOf r;
             serverRows := if isResolved response then students (stateOf r)
                           else serverRows l;
             classesInFlight := classesInFlight l;
             rostersInFlight := n;
             savesInFlight :=
               if isResolved response
               then map (fun p => {| sent := sent p; replaced := true |})
                        (savesInFlight l)
               else savesInFlight l;
             heard := heard l ++ logOf r |}
      end
  | SaveSettles n response =>
      match nth_error (savesInFlight l) n with
      | None => l
      | Some p =>
          let r := handleSaveAttendance_resume response (now l) in
          {| now := stateOf r;
             serverRows := if isResolved response && negb (replaced p)
                           then sent p else serverRows l;
             classesInFlight := classesInFlight l;
             rostersInFlight := rostersInFlight l;
             savesInFlight := dropNth n (savesInFlight l);
             heard := heard l ++ logOf r |}
      end
  end.

Definition play (l : Live) (ticks : list Tick) : Live :=
  fold_left advance ticks l.

(** No edit is made while a save is in flight. *)
Fixpoint editsOutsideSaves (l : Live) (ticks : list Tick) : bool :=
  match ticks with
  | [] => true
  | t :: rest =>
      (if isEditTick t
       then match savesInFlight l with
            | [] => true
            | _ :: _ => false
            end
       else true)
      && editsOutsideSaves (advance l t) rest
  end.

(** The flag covers the differences, and a save in flight carries the
    buffer: a save whose buffer is still on the page carries its rows,
    and a buffer loaded since then is as the server sent it. *)
Definition flagCoversLive (l : Live) : Prop :=
  (hasChanges (now l) = false -> students (now l) = serverRows l) /\
  Forall (fun p => students (now l) = if replaced p then serverRows l else sent p)
         (savesInFlight l).

(** The ticks that bring the sample roster onto the page. *)
Definition arrives (roster : list AttendanceStudent.t) : list Tick :=
  [Mounts; ClassesSettle (Resolved (Some sampleClasses));
   RosterSettles (Resolved (Some roster))].

Ltac unfold_handlers :=
  unfold dispatch, withStudentsEffect, clickSave, handleSaveAttendance,
    handleMarkAll, handleStatusChange, loadClasses, loadStudents,
    setClasses, setSelectedClassId, setSelectedSectionId, setAttendanceDate,
    setStudents, setSearchQuery, setIsSaving, setIsLoading, setHasChanges,
    skip, perform, read, bind, ret, stateOf, logOf in *.

Ltac split_cases :=
  repeat match goal with
         | |- context [if ?b then _ else _] => destruct b eqn:?; cbn
         | |- context [match ?x with _ => _ end] => is_var x; destruct x; cbn
         end.

Lemma loadStudents_resolved (data : option (list AttendanceStudent.t)) (st : State) :
  loadStudents (Resolved data) st =
  (tt,
   mkState (classes st) (selectedClassId st) (selectedSectionId st)
     (attendanceDate st) (map rowOf (orEmpty data)) (searchQuery st)
     (isSaving st) false (hasChanges st),
   [GetAttendanceStudents (selectedClassId st) (selectedSectionId st)]).
Proof. reflexivity. Qed.

Lemma loadStudents_rejected (e : Thrown) (st : State) :
  loadStudents (Rejected e) st =
  (tt,
   mkState (classes st) (selectedClassId st) (selectedSectionId st)
     (attendanceDate st) (students st) (searchQuery st)
     (isSaving st) false (hasChanges st),
   [GetAttendanceStudents (selectedClassId st) (selectedSectionId st);
    ConsoleError "Failed to load students:" e;
    ToastError (Text "Failed to load students")]).
Proof. reflexivity. Qed.

Lemma handleStatusChange_run (studentId : string) (status : AttendanceStatus)
  (st : State) :
  handleStatusChange studentId status st =
  (tt,
   mkState (classes st) (selectedClassId st) (selectedSectionId st)
     (attendanceDate st)
     (map (fun s => if String.eqb (StudentAttendance.id s) studentId
                    then StudentAttendance.withStatus s status else s)
          (students st))
     (searchQuery st) (isSaving st) (isLoading st) true,
   []).
Proof. reflexivity. Qed.

Lemma handleMarkAll_run (status : AttendanceStatus) (st : State) :
  handleMarkAll status st =
  (tt,
   mkState (classes st) (selectedClassId st) (selectedSectionId st)
     (attendanceDate st)
     (map (fun s => StudentAttendance.withStatus s status) (students st))
     (searchQuery st) (isSaving st) (isLoading st) true,
   [ToastInfo (Text ("Marked all students as " ++ statusText status))]).
Proof. reflexivity. Qed.

Lemma handleSaveAttendance_no_class (response : Awaited MarkAttendanceResponse.t)
  (st : State) :
  truthy (selectedClassId st) = false ->
  handleSaveAttendance response st =
  (tt, st, [ToastError (Text "Please select a class")]).
Proof.
  intros Hcls. unfold_handlers. rewrite Hcls. reflexivity.
Qed.

Lemma handleSaveAttendance_resolved (value : MarkAttendanceResponse.t) (st : State) :
  truthy (selectedClassId st) = true ->
  handleSaveAttendance (Resolved value) st =
  (tt,
   mkState (classes st) (selectedClassId st) (selectedSectionId st)
     (attendanceDate st) (students st) (searchQuery st)
     false (isLoading st) false,
   [MarkAttendance (requestOf st);
    ToastSuccess (Text "Attendance saved successfully!")]).
Proof.
  intros Hcls. unfold_handlers. rewrite Hcls. reflexivity.
Qed.

Lemma handleSaveAttendance_rejected (e : Thrown) (st : State) :
  truthy (selectedClassId st) = true ->
  handleSaveAttendance (Rejected e) st =
  (tt,
   mkState (classes st) (selectedClassId st) (selectedSectionId st)
     (attendanceDate st) (students st) (searchQuery st)
     false (isLoading st) (hasChanges st),
   [MarkAttendance (requestOf st);
    ConsoleError "Failed to save attendance:" e;
    ToastError match e with
               | ApiException _ => UserFriendlyError e
               | OtherThrown _ => Text "Failed to save attendance"
               end]).
Proof.
  intros Hcls. unfold_handlers. rewrite Hcls. reflexivity.
Qed.

Lemma truthy_cases (s : string) : {truthy s = true} + {truthy s = false}.
Proof. destruct (truthy s); [left | right]; reflexivity. Defined.

Lemma handleSaveAttendance_sends (response : Awaited MarkAttendanceResponse.t)
  (st : State) :
  truthy (selectedClassId st) = true ->
  sentRequests (logOf (handleSaveAttendance response st)) = [requestOf st] /\
  filter isRequest (logOf (handleSaveAttendance response st)) =
    [MarkAttendance (requestOf st)].
Proof.
  intros Hcls. destruct response as [value | e].
  - rewrite handleSaveAttendance_resolved by exact Hcls. split; reflexivity.
  - rewrite handleSaveAttendance_rejected by exact Hcls. split; reflexivity.
Qed.

Lemma filter_all {A : Type} (p : A -> bool) (l : list A) :
  (forall x, In x l -> p x = true) -> filter p l = l.
Proof.
  induction l as [| x l IH]; intros Hall; cbn; [reflexivity |].
  rewrite (Hall x (or_introl eq_refl)). f_equal.
  apply IH. intros y Hy. apply Hall. right. exact Hy.
Qed.

(** * Editing the buffer *)

(** C10: [handleStatusChange studentId status] rewrites only the status
    of the rows whose id is [studentId].  Row by row, in buffer order: the
    id, roll number, first name and last name are kept; a row with that
    id gets the new status; a row with another id is kept whole.  The
    number of rows does not change. *)
Theorem handleStatusChange_touches_only_status
  (studentId : string) (status : AttendanceStatus) (st : State) :
  Forall2
    (fun before after =>
       StudentAttendance.id after = StudentAttendance.id before /\
       StudentAttendance.rollNumber after = StudentAttendance.rollNumber before /\
       StudentAttendance.firstName after = StudentAttendance.firstName before /\
       StudentAttendance.lastName after = StudentAttendance.lastName before /\
       (StudentAttendance.id before = studentId ->
        StudentAttendance.status after = Some status) /\
       (StudentAttendance.id before <> studentId -> after = before))
    (students st)
    (students (stateOf (handleStatusChange studentId status st))).
Proof.
  rewrite handleStatusChange_run. unfold stateOf. cbn.
  induction (students st) as [| row rows IH]; cbn; constructor; auto.
  destruct (String.eqb_spec (StudentAttendance.id row) studentId) as [Heq | Hne];
    cbn; repeat split; auto; intros; congruence.
Qed.

(** C8: after [handleMarkAll status] on a buffer of N rows, the buffer
    still has N rows, every row has status [status], the change flag is
    set and all N rows are dirty, and a save on a selected class submits
    N entries, each with that status. *)
Theorem handleMarkAll_marks_every_row
  (status : AttendanceStatus) (s : Session) :
  let s' := step s (MarkAllClicked status) in
  List.length (students (state s')) = List.length (students (state s)) /\
  Forall (fun row => StudentAttendance.status row = Some status)
         (students (state s')) /\
  hasChanges (state s') = true /\
  List.length (dirtyEntries s') = List.length (students (state s)) /\
  (forall response,
     truthy (selectedClassId (state s)) = true ->
     exists req,
       sentRequests (logOf (handleSaveAttendance response (state s'))) = [req] /\
       List.length (MarkAttendanceRequest.entries req) =
         List.length (students (state s)) /\
       Forall (fun e => Entry.status e = Some status)
              (MarkAttendanceRequest.entries req)).
Proof.
  intros s'.
  assert (Hrows : students (state s') =
                  map (fun r => StudentAttendance.withStatus r status)
                      (students (state s)))
    by reflexivity.
  assert (Hcls' : selectedClassId (state s') = selectedClassId (state s))
    by reflexivity.
  assert (Hflag : hasChanges (state s') = true) by reflexivity.
  assert (Htouched : touched (history s') =
                     map StudentAttendance.id (students (state s))
                     ++ touched (history s))
    by reflexivity.
  assert (Hall : Forall (fun row => StudentAttendance.status row = Some status)
                   (students (state s'))).
  { rewrite Hrows. apply Forall_forall. intros row Hin. apply in_map_iff in Hin.
    destruct Hin as [r [<- _]]. reflexivity. }
  clearbody s'.
  split; [rewrite Hrows; apply length_map |].
  split; [exact Hall |].
  split; [exact Hflag |].
  split.
  - unfold dirtyEntries. rewrite filter_all.
    + rewrite Hrows. apply length_map.
    + intros row Hin. unfold touchedRow. rewrite Htouched.
      apply existsb_exists. exists (StudentAttendance.id row).
      split; [| apply String.eqb_refl].
      apply in_or_app. left. rewrite Hrows in Hin. apply in_map_iff in Hin.
      destruct Hin as [r [<- Hr]]. cbn. apply in_map. exact Hr.
  - intros response Hcls. exists (requestOf (state s')).
    rewrite <- Hcls' in Hcls.
    split; [apply (handleSaveAttendance_sends response (state s') Hcls) |].
    unfold requestOf; cbn [MarkAttendanceRequest.entries]. split.
    + rewrite length_map, Hrows. apply length_map.
    + apply Forall_forall. intros e Hin. apply in_map_iff in Hin.
      destruct Hin as [row [<- Hrow]]. cbn.
      rewrite Forall_forall in Hall. apply Hall. exact Hrow.
Qed.

Lemma handleMarkAll_marks_every_row_witness :
  let s' := step loadedSession (MarkAllClicked ABSENT) in
  truthy (selectedClassId (state loadedSession)) = true /\
  List.length (dirtyEntries s') = 2 /\
  exists req,
    sentRequests (logOf (handleSaveAttendance accepted (state s'))) = [req] /\
    List.length (MarkAttendanceRequest.entries req) = 2.
Proof.
  cbv zeta.
  destruct (handleMarkAll_marks_every_row ABSENT loadedSession)
    as [_ [_ [_ [Hdirty Hsave]]]].
  split; [reflexivity |].
  split; [exact Hdirty |].
  destruct (Hsave accepted eq_refl) as [req [Hsent [Hn _]]].
  exists req. split; [exact Hsent | exact Hn].
Defined.

(** C4, as the component behaves: for a [studentId] that no row of the
    buffer carries, [handleStatusChange] raises nothing and logs nothing,
    leaves every row and every other cell as it was, and sets the change
    flag. *)
Theorem handleStatusChange_unknown_id
  (studentId : string) (status : AttendanceStatus) (st : State) :
  hasStudent st studentId = false ->
  handleStatusChange studentId status st =
  (tt,
   mkState (classes st) (selectedClassId st) (selectedSectionId st)
     (attendanceDate st) (students st) (searchQuery st)
     (isSaving st) (isLoading st) true,
   []).
Proof.
  intros Hunknown. rewrite handleStatusChange_run.
  replace (map _ (students st)) with (students st); [reflexivity |].
  unfold hasStudent in Hunknown.
  induction (students st) as [| row rows IH]; [reflexivity |].
  cbn in Hunknown |- *. apply orb_false_iff in Hunknown.
  destruct Hunknown as [Hrow Hrows].
  rewrite Hrow. f_equal. apply IH. exact Hrows.
Qed.

Lemma handleStatusChange_unknown_id_witness :
  hasStudent (state loadedSession) "unknown-id" = false /\
  students (stateOf (handleStatusChange "unknown-id" PRESENT (state loadedSession)))
  = students (state loadedSession).
Proof.
  split; [reflexivity |].
  rewrite (handleStatusChange_unknown_id "unknown-id" PRESENT
             (state loadedSession) eq_refl).
  reflexivity.
Defined.

(** C4 as stated fails: on the freshly loaded sample roster,
    [handleStatusChange "unknown-id" PRESENT] does not leave the buffer
    as it was.  No row has that id and nothing is reported, yet the
    change flag goes from unset to set, which enables the Save button. *)
Lemma handleStatusChange_unknown_id_marks_changes :
  let st := state loadedSession in
  let r := handleStatusChange "unknown-id" PRESENT st in
  hasStudent st "unknown-id" = false /\
  logOf r = [] /\
  hasChanges st = false /\
  hasChanges (stateOf r) = true /\
  saveDisabled st = true /\
  saveDisabled (stateOf r) = false /\
  stateOf r <> st.
Proof.
  cbv zeta. repeat split. intros Heq.
  apply (f_equal hasChanges) in Heq. discriminate Heq.
Qed.

(** * Saving *)

(** C2: a save that the service rejects, for whatever reason, leaves the
    buffer alone.  The rows, the change flag, and the class, section and
    date are as before; the history of confirmed and touched rows is as
    before; and a retry sends the very request of the failed attempt. *)
Theorem rejected_save_keeps_buffer (e : Thrown) (st : State) (h : History) :
  let r := handleSaveAttendance (Rejected e) st in
  students (stateOf r) = students st /\
  hasChanges (stateOf r) = hasChanges st /\
  selectedClassId (stateOf r) = selectedClassId st /\
  selectedSectionId (stateOf r) = selectedSectionId st /\
  attendanceDate (stateOf r) = attendanceDate st /\
  record (SaveClicked (Rejected e)) st (stateOf r) (logOf r) h = h /\
  (forall response,
     sentRequests (logOf (handleSaveAttendance response (stateOf r))) =
     sentRequests (logOf r)).
Proof.
  cbv zeta.
  destruct (truthy_cases (selectedClassId st)) as [Hcls | Hcls].
  - rewrite (handleSaveAttendance_rejected e st Hcls).
    repeat split.
    intros response.
    match goal with
    | |- context [handleSaveAttendance response ?s] =>
        destruct (handleSaveAttendance_sends response s Hcls) as [Hsent _];
        rewrite Hsent
    end.
    reflexivity.
  - rewrite (handleSaveAttendance_no_class (Rejected e) st Hcls).
    repeat split.
    intros response. unfold stateOf; cbn [fst snd].
    rewrite (handleSaveAttendance_no_class response st Hcls). reflexivity.
Qed.

(** C3, as the component behaves: while the change flag is unset the Save
    button is disabled, so a click on it calls nothing, sends nothing
    and changes nothing. *)
Theorem clickSave_without_changes
  (response : Awaited MarkAttendanceResponse.t) (st : State) :
  hasChanges st = false ->
  clickSave response st = (tt, st, []).
Proof.
  intros Hflag. unfold clickSave, bind, read, saveDisabled, skip, ret.
  rewrite Hflag. reflexivity.
Qed.

Lemma clickSave_without_changes_witness :
  hasChanges (state loadedSession) = false /\
  clickSave accepted (state loadedSession) = (tt, state loadedSession, []).
Proof.
  split; [reflexivity |].
  apply (clickSave_without_changes accepted (state loadedSession)).
  reflexivity.
Defined.

(** C3 as stated fails: on the freshly loaded sample roster nothing is
    dirty (the change flag is unset, no row was touched, every row is as
    the server sent it), yet [handleSaveAttendance] does not fail: it
    posts the whole roster and reports success. *)
Lemma handleSaveAttendance_sends_clean_buffer :
  let s := loadedSession in
  hasChanges (state s) = false /\
  touched (history s) = [] /\
  students (state s) = confirmed (history s) /\
  logOf (handleSaveAttendance accepted (state s)) =
    [MarkAttendance (requestOf (state s));
     ToastSuccess (Text "Attendance saved successfully!")] /\
  List.length (MarkAttendanceRequest.entries (requestOf (state s))) = 2.
Proof.
  cbv zeta. repeat split.
Qed.

(** C1, as the component behaves: with a class selected,
    [handleSaveAttendance] makes exactly one service call, a single
    [markAttendance] request, and that request carries one entry
    [{studentId, status}] for every row of the buffer, in buffer order and
    without remarks, whether or not the row was edited. *)
Theorem save_posts_every_row
  (response : Awaited MarkAttendanceResponse.t) (st : State) :
  truthy (selectedClassId st) = true ->
  exists req,
    filter isRequest (logOf (handleSaveAttendance response st)) =
      [MarkAttendance req] /\
    MarkAttendanceRequest.classId req = selectedClassId st /\
    map Entry.studentId (MarkAttendanceRequest.entries req) =
      map StudentAttendance.id (students st) /\
    map Entry.status (MarkAttendanceRequest.entries req) =
      map StudentAttendance.status (students st) /\
    Forall (fun e => Entry.remarks e = None) (MarkAttendanceRequest.entries req).
Proof.
  intros Hcls. exists (requestOf st).
  split; [apply (handleSaveAttendance_sends response st Hcls) |].
  unfold requestOf; cbn [MarkAttendanceRequest.classId MarkAttendanceRequest.entries].
  split; [reflexivity |].
  rewrite !map_map. cbn.
  repeat split.
  apply Forall_forall. intros e Hin. apply in_map_iff in Hin.
  destruct Hin as [row [<- _]]. reflexivity.
Qed.

Lemma save_posts_every_row_witness :
  truthy (selectedClassId (state loadedSession)) = true /\
  exists req,
    filter isRequest (logOf (handleSaveAttendance accepted (state loadedSession))) =
      [MarkAttendance req] /\
    map Entry.studentId (MarkAttendanceRequest.entries req) = ["s1"; "s2"].
Proof.
  split; [reflexivity |].
  destruct (save_posts_every_row accepted (state loadedSession) eq_refl)
    as [req [Hlog [_ [Hids _]]]].
  exists req. split; [exact Hlog | exact Hids].
Defined.

(** C1 as stated fails: load the sample roster and mark s1 absent.  Row
    s2 is then not dirty: the user never touched it and its status is the
    one the server sent.  A click on Save still posts an entry for s2. *)
Lemma save_posts_untouched_row :
  let s := session "2026-01-15" [mounted sampleRoster; StatusChecked "s1" ABSENT] in
  let s2 := StudentAttendance.mk "s2" "02" "Bilal" "Raza" (Some PRESENT) in
  In s2 (students (state s)) /\
  In s2 (confirmed (history s)) /\
  touchedRow (history s) s2 = false /\
  map StudentAttendance.id (dirtyEntries s) = ["s1"] /\
  exists req,
    sentRequests (logOf (clickSave accepted (state s))) = [req] /\
    In (Entry.mk "s2" (Some PRESENT) None) (MarkAttendanceRequest.entries req).
Proof.
  vm_compute.
  split; [right; left; reflexivity |].
  split; [right; left; reflexivity |].
  split; [reflexivity |].
  split; [reflexivity |].
  eexists. split; [reflexivity |].
  right; left; reflexivity.
Qed.

(** C7, as the component behaves: there is no check before a resubmission.
    Whatever was submitted earlier in the session, an enabled Save button
    on a selected class sends exactly one request, and that request leaves
    [allowOverride] out.  A rejection, for an override conflict or for
    anything else, comes from the server only; it leaves the rows, the
    change flag and the history as they were. *)
Theorem save_has_no_resubmission_check
  (response : Awaited MarkAttendanceResponse.t) (s : Session) :
  truthy (selectedClassId (state s)) = true ->
  saveDisabled (state s) = false ->
  exists req,
    sentRequests (logOf (dispatch (SaveClicked response) (state s))) = [req] /\
    contextOf req = contextOf (requestOf (state s)) /\
    MarkAttendanceRequest.allowOverride req = None /\
    (forall e, response = Rejected e ->
       students (state (step s (SaveClicked response))) = students (state s) /\
       hasChanges (state (step s (SaveClicked response))) = true /\
       history (step s (SaveClicked response)) = history s).
Proof.
  intros Hcls Henabled. exists (requestOf (state s)).
  assert (Hclick : dispatch (SaveClicked response) (state s) =
                   handleSaveAttendance response (state s)).
  { cbn [dispatch]. unfold clickSave, bind, read.
    rewrite Henabled.
    destruct (handleSaveAttendance response (state s)) as [[u st'] log].
    destruct u. reflexivity. }
  assert (Hflag : hasChanges (state s) = true).
  { unfold saveDisabled in Henabled. apply orb_false_iff in Henabled.
    destruct Henabled as [Hneg _]. apply negb_false_iff in Hneg. exact Hneg. }
  split; [rewrite Hclick; apply (handleSaveAttendance_sends response _ Hcls) |].
  split; [reflexivity |].
  split; [reflexivity |].
  intros e ->. unfold step. rewrite Hclick.
  rewrite (handleSaveAttendance_rejected e (state s) Hcls).
  cbn. repeat split. exact Hflag.
Qed.

Lemma save_has_no_resubmission_check_witness :
  let s := session "2026-01-15"
             [mounted sampleRoster; StatusChecked "s1" ABSENT;
              SaveClicked accepted; StatusChecked "s1" LATE] in
  truthy (selectedClassId (state s)) = true /\
  saveDisabled (state s) = false /\
  exists req,
    sentRequests (logOf (dispatch (SaveClicked accepted) (state s))) = [req] /\
    MarkAttendanceRequest.allowOverride req = None.
Proof.
  cbv zeta. split; [reflexivity |]. split; [reflexivity |].
  destruct (save_has_no_resubmission_check accepted
              (session "2026-01-15"
                 [mounted sampleRoster; StatusChecked "s1" ABSENT;
                  SaveClicked accepted; StatusChecked "s1" LATE])
              eq_refl eq_refl) as [req [Hsent [_ [Hover _]]]].
  exists req. split; [exact Hsent | exact Hover].
Defined.

(** C7 as stated fails: save the sample roster once, edit again and click
    Save.  A submission for the same class and date has been accepted
    before and the request does not allow an override, yet the request is
    sent, and when the server accepts it the change flag is cleared. *)
Lemma resubmission_is_sent :
  let s := session "2026-01-15"
             [mounted sampleRoster; StatusChecked "s1" ABSENT;
              SaveClicked accepted; StatusChecked "s1" LATE] in
  let r := dispatch (SaveClicked accepted) (state s) in
  exists req,
    sentRequests (logOf r) = [req] /\
    priorSubmissionExists (history s) (contextOf req) = true /\
    MarkAttendanceRequest.allowOverride req <> Some true /\
    hasChanges (state s) = true /\
    hasChanges (stateOf r) = false.
Proof.
  cbv zeta. eexists. split; [vm_compute; reflexivity |].
  split; [vm_compute; reflexivity |].
  split; [discriminate |].
  split; vm_compute; reflexivity.
Qed.

(** * Loading a roster *)

Lemma loadStudents_rows (roster : list AttendanceStudent.t) (st : State) :
  let st' := stateOf (loadStudents (Resolved (Some roster)) st) in
  students st' = map rowOf roster /\
  List.length (students st') = List.length roster /\
  map StudentAttendance.id (students st') = map AttendanceStudent.id roster /\
  hasChanges st' = hasChanges st.
Proof.
  rewrite loadStudents_resolved. unfold stateOf. cbn.
  repeat split.
  - apply length_map.
  - rewrite map_map. reflexivity.
Qed.

(** C9, as the component behaves: after a roster has loaded, every row
    has the id of its roster entry and, as its status, exactly the
    [defaultStatus] that entry came with; the component substitutes
    nothing of its own.  A load from a state without unsaved changes
    leaves the change flag unset. *)
Theorem loadStudents_copies_server_default
  (roster : list AttendanceStudent.t) (st : State) :
  let st' := stateOf (loadStudents (Resolved (Some roster)) st) in
  Forall2
    (fun entry row =>
       StudentAttendance.id row = AttendanceStudent.id entry /\
       StudentAttendance.status row = AttendanceStudent.defaultStatus entry)
    roster (students st') /\
  (hasChanges st = false -> hasChanges st' = false).
Proof.
  rewrite loadStudents_resolved. unfold stateOf. cbn. split.
  - induction roster as [| entry entries IH]; cbn; constructor; auto.
  - auto.
Qed.

Lemma loadStudents_copies_server_default_witness :
  hasChanges (initialState "2026-01-15") = false /\
  hasChanges (stateOf (loadStudents (Resolved (Some sampleRoster))
                         (initialState "2026-01-15"))) = false.
Proof.
  split; [reflexivity |].
  apply (loadStudents_copies_server_default sampleRoster (initialState "2026-01-15")).
  reflexivity.
Defined.

(** C9 as stated fails: when the roster entry of s2 comes without a
    default status, the row of s2 has no status after the load; it is not
    PRESENT. *)
Lemma missing_default_is_not_replaced :
  let s := session "2026-01-15" [mounted partialRoster] in
  map StudentAttendance.id (students (state s)) = ["s1"; "s2"] /\
  map StudentAttendance.status (students (state s)) = [Some PRESENT; None] /\
  nth_error (map StudentAttendance.status (students (state s))) 1 <> Some (Some PRESENT).
Proof.
  vm_compute. repeat split. discriminate.
Qed.

(** C6 at a failing input: mark s1 absent in the first class, then select
    the second class.  Its roster replaces the buffer, one row per roster
    entry, each as the server sent it and none touched; the change flag
    is still set, so the Save button is enabled and the unsaved-changes
    banner shows. *)
Theorem reload_keeps_change_flag :
  let s := session "2026-01-15"
             [mounted sampleRoster; StatusChecked "s1" ABSENT;
              ClassSelected "c2" (Resolved (Some otherRoster))] in
  map StudentAttendance.id (students (state s)) =
    map AttendanceStudent.id otherRoster /\
  students (state s) = confirmed (history s) /\
  touched (history s) = [] /\
  hasChanges (state s) = true /\
  saveDisabled (state s) = false.
Proof.
  vm_compute. repeat split.
Qed.

(** * The change flag over a session *)

Lemma loadStudents_cut
  (response : Awaited (option (list AttendanceStudent.t))) (st : State) :
  loadStudents response st =
  (loadStudents_begin ;; loadStudents_resume response) st.
Proof. destruct response; reflexivity. Qed.

Lemma loadClasses_cut (response : Awaited (option (list ClassInfo))) (st : State) :
  loadClasses response st =
  (loadClasses_begin ;; loadClasses_resume response) st.
Proof.
  destruct response as [[[| first rest] |] | e]; reflexivity.
Qed.

Lemma handleSaveAttendance_cut
  (response : Awaited MarkAttendanceResponse.t) (st : State) :
  handleSaveAttendance response st =
  (went <- handleSaveAttendance_begin ;;
   if went then handleSaveAttendance_resume response else skip) st.
Proof.
  unfold handleSaveAttendance, handleSaveAttendance_begin,
    handleSaveAttendance_resume, bind, read, ret, skip, perform.
  destruct (truthy (selectedClassId st)); destruct response; reflexivity.
Qed.

Ltac unfold_parts :=
  unfold afterPart, studentsEffect_begin, clickSave_begin,
    handleSaveAttendance_begin, handleSaveAttendance_resume,
    loadClasses_begin, loadClasses_resume,
    loadStudents_begin, loadStudents_resume in *;
  unfold_handlers.

Lemma In_dropNth {A : Type} (n : nat) (l : list A) (x : A) :
  In x (dropNth n l) -> In x l.
Proof.
  revert n. induction l as [| y l IH]; intros n Hin; [destruct n; exact Hin |].
  destruct n as [| n]; cbn in Hin.
  - right. exact Hin.
  - destruct Hin as [-> | Hin]; [left; reflexivity | right; apply (IH n); exact Hin].
Qed.

Lemma advance_keeps_flagCoversLive (l : Live) (t : Tick) :
  (isEditTick t = true -> savesInFlight l = []) ->
  flagCoversLive l -> flagCoversLive (advance l t).
Proof.
  destruct l as [st sr cf rf saves log]. unfold flagCoversLive.
  cbn [now serverRows savesInFlight]. intros Hedit [Hflag Hsaves].
  destruct t as [| v | v | v | v | sid status | status | | cr | rr | n sv];
    cbn [advance now serverRows savesInFlight classesInFlight rostersInFlight].
  - unfold_parts. cbn. auto.
  - unfold_parts. cbn. split_conditions; cbn; auto.
  - unfold_parts. cbn. split_conditions; cbn; auto.
  - unfold_parts. cbn. auto.
  - unfold_parts. cbn. auto.
  - rewrite (Hedit eq_refl). unfold_parts. cbn. split; [discriminate | constructor].
  - rewrite (Hedit eq_refl). unfold_parts. cbn. split; [discriminate | constructor].
  - unfold_parts. unfold saveDisabled. cbn.
    destruct (negb (hasChanges st) || isSaving st); cbn; [auto |].
    destruct (truthy (selectedClassId st)); cbn; [| auto].
    split; [exact Hflag |]. constructor; [reflexivity | exact Hsaves].
  - destruct cf as [| cf]; [cbn; auto |].
    destruct cr as [[[| first rest] |] | e];
      unfold_parts; cbn; split_conditions; cbn; auto.
  - destruct rf as [| rf]; [cbn; auto |].
    destruct rr as [data | e]; unfold_parts; cbn; [| auto].
    split; [reflexivity |].
    apply Forall_forall. intros p Hp. apply in_map_iff in Hp.
    destruct Hp as [q [<- _]]. reflexivity.
  - destruct (nth_error saves n) as [p |] eqn:Hnth; [| cbn; auto].
    apply nth_error_In in Hnth.
    rewrite Forall_forall in Hsaves.
    pose proof (Hsaves p Hnth) as Hp.
    destruct sv as [value | e]; unfold_parts; cbn.
    + destruct (replaced p) eqn:Hrep; cbn.
      * split; [intros _; exact Hp |].
        apply Forall_forall. intros q Hq. apply Hsaves.
        apply (In_dropNth n). exact Hq.
      * split; [intros _; exact Hp |].
        apply Forall_forall. intros q Hq.
        pose proof (Hsaves q (In_dropNth n saves q Hq)) as Hq'.
        destruct (replaced q); [exact Hp | exact Hq'].
    + split; [exact Hflag |].
      apply Forall_forall. intros q Hq. apply Hsaves.
      apply (In_dropNth n). exact Hq.
Qed.

Lemma play_keeps_flagCoversLive (ticks : list Tick) :
  forall l, editsOutsideSaves l ticks = true ->
            flagCoversLive l -> flagCoversLive (play l ticks).
Proof.
  induction ticks as [| t ticks IH]; intros l Hcalm Hinv; [exact Hinv |].
  cbn [editsOutsideSaves] in Hcalm. apply andb_true_iff in Hcalm.
  destruct Hcalm as [Ht Hrest].
  cbn [play fold_left]. apply IH; [exact Hrest |].
  apply advance_keeps_flagCoversLive; [| exact Hinv].
  intros Hedit. rewrite Hedit in Ht.
  destruct (savesInFlight l); [reflexivity | discriminate Ht].
Qed.

(** C5, as the component behaves: in every state the page can reach,
    requests in flight included, a row that differs from what the server
    last confirmed at its position (the default of the last roster, or
    the row sent in the last accepted save of that roster) has the change
    flag set, provided no edit was made while a save was in flight. *)
Theorem changed_row_sets_flag
  (today : string) (ticks : list Tick) (i : nat) (row : StudentAttendance.t) :
  editsOutsideSaves (boot today) ticks = true ->
  nth_error (students (now (play (boot today) ticks))) i = Some row ->
  nth_error (serverRows (play (boot today) ticks)) i <> Some row ->
  hasChanges (now (play (boot today) ticks)) = true.
Proof.
  intros Hcalm Hrow Hdiff.
  destruct (hasChanges (now (play (boot today) ticks))) eqn:Hflag; [reflexivity |].
  exfalso. apply Hdiff.
  assert (Hinv : flagCoversLive (play (boot today) ticks)).
  { apply play_keeps_flagCoversLive; [exact Hcalm |].
    split; [intros _; reflexivity | constructor]. }
  destruct Hinv as [Hcovers _]. rewrite <- (Hcovers Hflag). exact Hrow.
Qed.

Lemma changed_row_sets_flag_witness :
  let ticks := arrives sampleRoster
               ++ [ChecksStatus "s1" ABSENT; ClicksSave; SelectsSection "sec-a";
                   SaveSettles 0 (Rejected (OtherThrown "offline"))] in
  let row := StudentAttendance.mk "s1" "01" "Amna" "Khan" (Some ABSENT) in
  editsOutsideSaves (boot "2026-01-15") ticks = true /\
  nth_error (students (now (play (boot "2026-01-15") ticks))) 0 = Some row /\
  nth_error (serverRows (play (boot "2026-01-15") ticks)) 0 <> Some row /\
  hasChanges (now (play (boot "2026-01-15") ticks)) = true.
Proof.
  cbv zeta.
  assert (Hcalm : editsOutsideSaves (boot "2026-01-15")
                    (arrives sampleRoster
                     ++ [ChecksStatus "s1" ABSENT; ClicksSave; SelectsSection "sec-a";
                         SaveSettles 0 (Rejected (OtherThrown "offline"))]) = true)
    by (vm_compute; reflexivity).
  assert (Hrow : nth_error
                   (students (now (play (boot "2026-01-15")
                      (arrives sampleRoster
                       ++ [ChecksStatus "s1" ABSENT; ClicksSave; SelectsSection "sec-a";
                           SaveSettles 0 (Rejected (OtherThrown "offline"))])))) 0
                 = Some (StudentAttendance.mk "s1" "01" "Amna" "Khan" (Some ABSENT)))
    by (vm_compute; reflexivity).
  assert (Hdiff : nth_error
                    (serverRows (play (boot "2026-01-15")
                       (arrives sampleRoster
                        ++ [ChecksStatus "s1" ABSENT; ClicksSave; SelectsSection "sec-a";
                            SaveSettles 0 (Rejected (OtherThrown "offline"))]))) 0
                  <> Some (StudentAttendance.mk "s1" "01" "Amna" "Khan" (Some ABSENT)))
    by (vm_compute; discriminate).
  split; [exact Hcalm |]. split; [exact Hrow |]. split; [exact Hdiff |].
  exact (changed_row_sets_flag "2026-01-15" _ 0 _ Hcalm Hrow Hdiff).
Defined.

(** C5 as stated fails, in both directions.  Load the sample roster and
    tick PRESENT for s1, who is already PRESENT: the change flag is set
    although every row equals what the server confirmed.  Or mark s1
    absent, click Save, and mark s2 late while the request is in flight:
    when the server accepts the request, the continuation clears the
    flag, and the Save button is disabled, although s2 reads LATE and the
    server has PRESENT for s2. *)
Lemma flag_is_not_value_difference :
  let reselected :=
    play (boot "2026-01-15") (arrives sampleRoster ++ [ChecksStatus "s1" PRESENT]) in
  let lost :=
    play (boot "2026-01-15")
      (arrives sampleRoster
       ++ [ChecksStatus "s1" ABSENT; ClicksSave; ChecksStatus "s2" LATE;
           SaveSettles 0 accepted]) in
  (hasChanges (now reselected) = true /\
   students (now reselected) = serverRows reselected) /\
  (hasChanges (now lost) = false /\
   saveDisabled (now lost) = true /\
   savesInFlight lost = [] /\
   nth_error (students (now lost)) 1 =
     Some (StudentAttendance.mk "s2" "02" "Bilal" "Raza" (Some LATE)) /\
   nth_error (serverRows lost) 1 =
     Some (StudentAttendance.mk "s2" "02" "Bilal" "Raza" (Some PRESENT)) /\
   sentRequests (heard lost) =
     [requestOf (now (play (boot "2026-01-15")
                        (arrives sampleRoster ++ [ChecksStatus "s1" ABSENT])))]).
Proof.
  vm_compute. repeat split.
Qed.

(** C5 as stated fails: load the sample roster and tick PRESENT for s1,
    who is already PRESENT.  The change flag is set although every row
    still equals what the server confirmed. *)
Lemma reselecting_status_sets_flag :
  let s := session "2026-01-15" [mounted sampleRoster; StatusChecked "s1" PRESENT] in
  hasChanges (state s) = true /\
  students (state s) = confirmed (history s).
Proof.
  vm_compute. split; reflexivity.
Qed.

(** * The statistics cards *)

Lemma stats_split_rows (rows : list StudentAttendance.t) :
  List.length rows =
  List.length (filter (statusIs PRESENT) rows)
  + List.length (filter (statusIs ABSENT) rows)
  + List.length (filter (statusIs LATE) rows)
  + List.length (filter (statusIs EXCUSED) rows)
  + List.length (filter uncounted rows).
Proof.
  induction rows as [| row rows IH]; [reflexivity |].
  unfold statusIs, uncounted in *.
  cbn [filter List.length].
  destruct (StudentAttendance.status row) as [[| | | |] |]; cbn [List.length]; lia.
Qed.

(** X1: the four category cards do not always add up to the total.  The
    total is the sum of present, absent, late and leave plus the number
    of rows that are HALF_DAY or have no status; so the four never exceed
    the total, and they add up to it when no such row exists. *)
Theorem stats_total_splits (st : State) :
  Stats.total (stats st) =
    Stats.present (stats st) + Stats.absent (stats st)
    + Stats.late (stats st) + Stats.leave (stats st)
    + List.length (filter uncounted (students st)) /\
  Stats.present (stats st) + Stats.absent (stats st)
    + Stats.late (stats st) + Stats.leave (stats st) <= Stats.total (stats st) /\
  (filter uncounted (students st) = [] ->
   Stats.present (stats st) + Stats.absent (stats st)
   + Stats.late (stats st) + Stats.leave (stats st) = Stats.total (stats st)).
Proof.
  pose proof (stats_split_rows (students st)) as Hsplit.
  unfold stats; cbn [Stats.total Stats.present Stats.absent Stats.late Stats.leave].
  split; [exact Hsplit |]. split; [lia |].
  intros Hnone. rewrite Hnone in Hsplit. cbn [List.length] in Hsplit. lia.
Qed.

Lemma stats_total_splits_witness :
  filter uncounted (students (state loadedSession)) = [] /\
  Stats.present (stats (state loadedSession))
  + Stats.absent (stats (state loadedSession))
  + Stats.late (stats (state loadedSession))
  + Stats.leave (stats (state loadedSession))
  = Stats.total (stats (state loadedSession)).
Proof.
  split; [reflexivity |].
  apply (stats_total_splits (state loadedSession)). reflexivity.
Defined.

Lemma filter_statusIs_marked (x status : AttendanceStatus)
  (rows : list StudentAttendance.t) :
  filter (statusIs x) (map (fun s => StudentAttendance.withStatus s status) rows) =
  if statusIs x (StudentAttendance.mk "" "" "" "" (Some status))
  then map (fun s => StudentAttendance.withStatus s status) rows
  else [].
Proof.
  induction rows as [| row rows IH].
  - destruct (statusIs x _); reflexivity.
  - cbn [map filter]. rewrite IH.
    unfold statusIs; cbn [StudentAttendance.withStatus StudentAttendance.status].
    destruct status, x; reflexivity.
Qed.

(** X2: after [handleMarkAll status] on N rows the cards show total N and
    N in the card of [status], zero in the other cards; for HALF_DAY,
    which has no card, all four cards show zero. *)
Theorem stats_after_handleMarkAll (status : AttendanceStatus) (st : State) :
  let n := List.length (students st) in
  stats (stateOf (handleMarkAll status st)) =
  {| Stats.total := n;
     Stats.present := match status with PRESENT => n | _ => 0 end;
     Stats.absent := match status with ABSENT => n | _ => 0 end;
     Stats.late := match status with LATE => n | _ => 0 end;
     Stats.leave := match status with EXCUSED => n | _ => 0 end |}.
Proof.
  rewrite handleMarkAll_run. unfold stats, stateOf.
  cbn [fst snd students].
  rewrite !filter_statusIs_marked, length_map.
  destruct status; cbn; rewrite ?length_map; reflexivity.
Qed.

(** * The search box *)

Lemma includes_empty (s : string) : includes s "" = true.
Proof. destruct s; reflexivity. Qed.

Lemma filter_map_same {A : Type} (p : A -> bool) (f : A -> A) (l : list A) :
  (forall x, p (f x) = p x) ->
  filter p (map f l) = map f (filter p l).
Proof.
  intros Hsame. induction l as [| x l IH]; [reflexivity |].
  cbn [map filter]. rewrite Hsame, IH. destruct (p x); reflexivity.
Qed.

(** X3: with an empty search box the table shows every row of the
    buffer, whatever the rows contain. *)
Theorem filteredStudents_empty_query
  (toLowerCase : string -> string) (st : State) :
  searchQuery st = "" ->
  filteredStudents toLowerCase st = students st.
Proof.
  intros Hquery. unfold filteredStudents. rewrite Hquery.
  apply filter_all. intros row _. unfold matchesSearch.
  rewrite (includes_empty (StudentAttendance.rollNumber row)).
  apply orb_true_r.
Qed.

Lemma filteredStudents_empty_query_witness :
  searchQuery (state loadedSession) = "" /\
  filteredStudents (fun s => s) (state loadedSession) = students (state loadedSession).
Proof.
  split; [reflexivity |].
  apply (filteredStudents_empty_query (fun s => s) (state loadedSession)).
  reflexivity.
Defined.

(** X4: an edit never makes a row appear in or vanish from the table.
    The search looks at names and roll numbers only, so after
    [handleStatusChange] or [handleMarkAll] the table shows the rows it
    showed before, in the same order, with the edit applied to them. *)
Theorem filteredStudents_after_edit
  (toLowerCase : string -> string)
  (studentId : string) (status : AttendanceStatus) (st : State) :
  filteredStudents toLowerCase (stateOf (handleStatusChange studentId status st)) =
    map (changeStatus studentId status) (filteredStudents toLowerCase st) /\
  filteredStudents toLowerCase (stateOf (handleMarkAll status st)) =
    map (fun s => StudentAttendance.withStatus s status)
        (filteredStudents toLowerCase st) /\
  map StudentAttendance.id
      (filteredStudents toLowerCase (stateOf (handleStatusChange studentId status st))) =
    map StudentAttendance.id (filteredStudents toLowerCase st) /\
  map StudentAttendance.id
      (filteredStudents toLowerCase (stateOf (handleMarkAll status st))) =
    map StudentAttendance.id (filteredStudents toLowerCase st).
Proof.
  assert (Hchange :
    filteredStudents toLowerCase (stateOf (handleStatusChange studentId status st)) =
    map (changeStatus studentId status) (filteredStudents toLowerCase st)).
  { rewrite handleStatusChange_run. unfold filteredStudents, stateOf.
    cbn [fst snd students searchQuery].
    apply (filter_map_same (matchesSearch toLowerCase (searchQuery st))
             (changeStatus studentId status)).
    intros row. unfold changeStatus.
    destruct (String.eqb (StudentAttendance.id row) studentId); reflexivity. }
  assert (Hall :
    filteredStudents toLowerCase (stateOf (handleMarkAll status st)) =
    map (fun s => StudentAttendance.withStatus s status)
        (filteredStudents toLowerCase st)).
  { rewrite handleMarkAll_run. unfold filteredStudents, stateOf.
    cbn [fst snd students searchQuery].
    apply filter_map_same. intros row. reflexivity. }
  split; [exact Hchange |]. split; [exact Hall |].
  rewrite Hchange, Hall, !map_map. split; apply map_ext; intros row.
  - unfold changeStatus.
    destruct (String.eqb (StudentAttendance.id row) studentId); reflexivity.
  - reflexivity.
Qed.

(** * How edits compose *)

Lemma handleStatusChange_state (studentId : string) (status : AttendanceStatus)
  (st : State) :
  stateOf (handleStatusChange studentId status st) =
  mkState (classes st) (selectedClassId st) (selectedSectionId st)
    (attendanceDate st) (map (changeStatus studentId status) (students st))
    (searchQuery st) (isSaving st) (isLoading st) true.
Proof. rewrite handleStatusChange_run. reflexivity. Qed.

Lemma handleMarkAll_state (status : AttendanceStatus) (st : State) :
  stateOf (handleMarkAll status st) =
  mkState (classes st) (selectedClassId st) (selectedSectionId st)
    (attendanceDate st)
    (map (fun s => StudentAttendance.withStatus s status) (students st))
    (searchQuery st) (isSaving st) (isLoading st) true.
Proof. rewrite handleMarkAll_run. reflexivity. Qed.

(** X5: for one student the last tick wins.  Two status changes for the
    same id leave the component in the state the second alone would
    have produced; ticking the same status twice is ticking it once. *)
Theorem handleStatusChange_last_wins
  (studentId : string) (first second : AttendanceStatus) (st : State) :
  stateOf (handleStatusChange studentId second
             (stateOf (handleStatusChange studentId first st))) =
  stateOf (handleStatusChange studentId second st).
Proof.
  rewrite !handleStatusChange_state. cbn [classes selectedClassId selectedSectionId
    attendanceDate students searchQuery isSaving isLoading].
  f_equal. rewrite map_map. apply map_ext. intros row. unfold changeStatus.
  destruct (String.eqb (StudentAttendance.id row) studentId) eqn:Hid.
  - cbn [StudentAttendance.withStatus StudentAttendance.id]. rewrite Hid. reflexivity.
  - rewrite Hid. reflexivity.
Qed.

(** X6: status changes for two different students can be made in either
    order: the resulting state is the same. *)
Theorem handleStatusChange_commutes
  (id1 id2 : string) (s1 s2 : AttendanceStatus) (st : State) :
  id1 <> id2 ->
  stateOf (handleStatusChange id1 s1 (stateOf (handleStatusChange id2 s2 st))) =
  stateOf (handleStatusChange id2 s2 (stateOf (handleStatusChange id1 s1 st))).
Proof.
  intros Hdiff.
  rewrite !handleStatusChange_state. cbn [classes selectedClassId selectedSectionId
    attendanceDate students searchQuery isSaving isLoading].
  f_equal. rewrite !map_map. apply map_ext. intros row. unfold changeStatus.
  destruct (String.eqb (StudentAttendance.id row) id1) eqn:H1;
    destruct (String.eqb (StudentAttendance.id row) id2) eqn:H2;
    cbn [StudentAttendance.withStatus StudentAttendance.id];
    rewrite ?H1, ?H2; try reflexivity.
  exfalso. apply Hdiff.
  apply String.eqb_eq in H1. apply String.eqb_eq in H2. congruence.
Qed.

Lemma handleStatusChange_commutes_witness :
  "s1" <> "s2" /\
  stateOf (handleStatusChange "s1" ABSENT
             (stateOf (handleStatusChange "s2" LATE (state loadedSession)))) =
  stateOf (handleStatusChange "s2" LATE
             (stateOf (handleStatusChange "s1" ABSENT (state loadedSession)))).
Proof.
  assert (Hdiff : "s1" <> "s2") by discriminate.
  split; [exact Hdiff |].
  exact (handleStatusChange_commutes "s1" "s2" ABSENT LATE (state loadedSession) Hdiff).
Defined.

(** X7: a quick mark overrides what was ticked before.  After
    [handleMarkAll status] the state does not depend on an earlier status
    change or an earlier quick mark. *)
Theorem handleMarkAll_overrides
  (studentId : string) (earlier status : AttendanceStatus) (st : State) :
  stateOf (handleMarkAll status (stateOf (handleStatusChange studentId earlier st))) =
    stateOf (handleMarkAll status st) /\
  stateOf (handleMarkAll status (stateOf (handleMarkAll earlier st))) =
    stateOf (handleMarkAll status st).
Proof.
  rewrite !handleMarkAll_state, handleStatusChange_state.
  cbn [classes selectedClassId selectedSectionId
    attendanceDate students searchQuery isSaving isLoading].
  split; f_equal; rewrite map_map; apply map_ext; intros row.
  - unfold changeStatus.
    destruct (String.eqb (StudentAttendance.id row) studentId); reflexivity.
  - reflexivity.
Qed.

Lemma changeStatus_id (studentId : string) (status : AttendanceStatus)
  (row : StudentAttendance.t) :
  StudentAttendance.id (changeStatus studentId status row) = StudentAttendance.id row.
Proof.
  unfold changeStatus.
  destruct (String.eqb (StudentAttendance.id row) studentId); reflexivity.
Qed.

(** X8: looking a student up after a status change.  The first row with
    the changed id is the row that was there before with the new status
    (and there is still none when there was none); the first row with any
    other id is untouched. *)
Theorem findStudent_after_handleStatusChange
  (studentId : string) (status : AttendanceStatus) (st : State) :
  let rows' := students (stateOf (handleStatusChange studentId status st)) in
  findStudent studentId rows' =
    option_map (fun s => StudentAttendance.withStatus s status)
               (findStudent studentId (students st)) /\
  (forall other, other <> studentId ->
     findStudent other rows' = findStudent other (students st)).
Proof.
  rewrite handleStatusChange_state. cbn [students]. split.
  - induction (students st) as [| row rows IH]; [reflexivity |].
    unfold findStudent in *. cbn [map find]. rewrite changeStatus_id.
    destruct (String.eqb (StudentAttendance.id row) studentId) eqn:Hid.
    + unfold changeStatus. rewrite Hid. reflexivity.
    + exact IH.
  - intros other Hother.
    induction (students st) as [| row rows IH]; [reflexivity |].
    unfold findStudent in *. cbn [map find]. rewrite changeStatus_id.
    destruct (String.eqb (StudentAttendance.id row) other) eqn:Ho; [| exact IH].
    unfold changeStatus.
    destruct (String.eqb (StudentAttendance.id row) studentId) eqn:Hid;
      [| reflexivity].
    exfalso. apply Hother.
    apply String.eqb_eq in Ho. apply String.eqb_eq in Hid. congruence.
Qed.

Lemma findStudent_after_handleStatusChange_witness :
  "s2" <> "s1" /\
  findStudent "s2"
    (students (stateOf (handleStatusChange "s1" ABSENT (state loadedSession)))) =
  findStudent "s2" (students (state loadedSession)).
Proof.
  assert (Hdiff : "s2" <> "s1") by discriminate.
  split; [exact Hdiff |].
  exact (proj2 (findStudent_after_handleStatusChange "s1" ABSENT (state loadedSession))
           "s2" Hdiff).
Defined.

(** * The Save button *)

Lemma clickSave_enabled (response : Awaited MarkAttendanceResponse.t) (st : State) :
  saveDisabled st = false ->
  clickSave response st = handleSaveAttendance response st.
Proof.
  intros Henabled. unfold clickSave, bind, read. rewrite Henabled.
  destruct (handleSaveAttendance response st) as [[[] st'] log]. reflexivity.
Qed.

Lemma clickSave_disabled (response : Awaited MarkAttendanceResponse.t) (st : State) :
  saveDisabled st = true ->
  clickSave response st = (tt, st, []).
Proof.
  intros Hdisabled. unfold clickSave, bind, read, skip, ret.
  rewrite Hdisabled. reflexivity.
Qed.

(** X9: an accepted save cannot be sent twice.  After the server has
    accepted a save, the change flag is unset and a further click on Save
    does nothing, whatever the server would answer. *)
Theorem accepted_save_disables_button
  (value : MarkAttendanceResponse.t) (response : Awaited MarkAttendanceResponse.t)
  (st : State) :
  truthy (selectedClassId st) = true ->
  saveDisabled st = false ->
  let st' := stateOf (clickSave (Resolved value) st) in
  hasChanges st' = false /\
  clickSave response st' = (tt, st', []).
Proof.
  intros Hcls Henabled st'.
  assert (Hflag : hasChanges st' = false).
  { subst st'. rewrite (clickSave_enabled _ st Henabled).
    rewrite (handleSaveAttendance_resolved value st Hcls). reflexivity. }
  split; [exact Hflag |].
  apply clickSave_disabled. unfold saveDisabled. rewrite Hflag. reflexivity.
Qed.

Lemma accepted_save_disables_button_witness :
  let st := stateOf (handleStatusChange "s1" ABSENT (state loadedSession)) in
  truthy (selectedClassId st) = true /\
  saveDisabled st = false /\
  hasChanges (stateOf (clickSave accepted st)) = false.
Proof.
  cbv zeta. split; [reflexivity |]. split; [reflexivity |].
  apply (accepted_save_disables_button
           {| MarkAttendanceResponse.message := "Attendance marked";
              MarkAttendanceResponse.markedCount := 2;
              MarkAttendanceResponse.attendanceDate := "2026-01-15" |}
           accepted
           (stateOf (handleStatusChange "s1" ABSENT (state loadedSession)))
           eq_refl eq_refl).
Defined.

(** X10: a rejected save can be retried from the button.  After the
    rejection the button is enabled again, and the next click sends the
    request of the failed attempt once more. *)
Theorem rejected_save_can_be_retried
  (e : Thrown) (response : Awaited MarkAttendanceResponse.t) (st : State) :
  truthy (selectedClassId st) = true ->
  saveDisabled st = false ->
  let r := clickSave (Rejected e) st in
  saveDisabled (stateOf r) = false /\
  sentRequests (logOf r) = [requestOf st] /\
  sentRequests (logOf (clickSave response (stateOf r))) = [requestOf st].
Proof.
  intros Hcls Henabled r.
  assert (Hflag : hasChanges st = true).
  { unfold saveDisabled in Henabled. apply orb_false_iff in Henabled.
    destruct Henabled as [Hneg _]. apply negb_false_iff in Hneg. exact Hneg. }
  assert (Hr : r = handleSaveAttendance (Rejected e) st)
    by (subst r; apply clickSave_enabled; exact Henabled).
  rewrite (handleSaveAttendance_rejected e st Hcls) in Hr.
  assert (Henabled' : saveDisabled (stateOf r) = false).
  { rewrite Hr. unfold saveDisabled, stateOf. cbn. rewrite Hflag. reflexivity. }
  split; [exact Henabled' |].
  split; [rewrite Hr; reflexivity |].
  rewrite (clickSave_enabled response _ Henabled').
  assert (Hcls' : truthy (selectedClassId (stateOf r)) = true)
    by (rewrite Hr; exact Hcls).
  rewrite (proj1 (handleSaveAttendance_sends response _ Hcls')).
  rewrite Hr. reflexivity.
Qed.

Lemma rejected_save_can_be_retried_witness :
  let st := stateOf (handleStatusChange "s1" ABSENT (state loadedSession)) in
  truthy (selectedClassId st) = true /\
  saveDisabled st = false /\
  saveDisabled (stateOf (clickSave (Rejected (OtherThrown "offline")) st)) = false.
Proof.
  cbv zeta. split; [reflexivity |]. split; [reflexivity |].
  apply (rejected_save_can_be_retried (OtherThrown "offline") accepted
           (stateOf (handleStatusChange "s1" ABSENT (state loadedSession)))
           eq_refl eq_refl).
Defined.


(** * What holds throughout a session *)

Lemma session_snoc (today : string) (evs : list Event) (ev : Event) :
  session today (evs ++ [ev]) = step (session today evs) ev.
Proof. unfold session. rewrite fold_left_app. reflexivity. Qed.

Lemma session_invariant (P : Session -> Prop) :
  (forall today, P (start today)) ->
  (forall s ev, P s -> P (step s ev)) ->
  forall today evs, P (session today evs).
Proof.
  intros Hstart Hstep today evs.
  induction evs as [| ev evs IH] using rev_ind.
  - apply Hstart.
  - rewrite session_snoc. apply Hstep. exact IH.
Qed.

Lemma step_resets_spinners (s : Session) (ev : Event) :
  isSaving (state s) = false /\ isLoading (state s) = false ->
  isSaving (state (step s ev)) = false /\ isLoading (state (step s ev)) = false.
Proof.
  destruct s as [st h log]. cbn [state]. intros [Hsaving Hloading].
  unfold step. cbn [state].
  destruct ev as [cr sr | v sr | v sr | v | v | sid status | status | r].
  - destruct cr as [[[| first rest] |] | e], sr as [data | e'];
      unfold_handlers; cbn; split_cases; cbn; auto.
  - destruct sr as [data | e']; unfold_handlers; cbn; split_cases; cbn; auto.
  - destruct sr as [data | e']; unfold_handlers; cbn; split_cases; cbn; auto.
  - cbn. auto.
  - cbn. auto.
  - cbn. auto.
  - cbn. auto.
  - destruct r as [value | e];
      unfold_handlers; unfold saveDisabled; cbn; split_cases; cbn; auto.
Qed.

(** X11: no handler leaves a spinner on.  After every event of a
    session, whether the requests it made were accepted or rejected,
    [isSaving] and [isLoading] are unset again; so the Save button is
    enabled exactly when the change flag is set. *)
Theorem session_resets_spinners (today : string) (evs : list Event) :
  isSaving (state (session today evs)) = false /\
  isLoading (state (session today evs)) = false /\
  saveDisabled (state (session today evs)) =
    negb (hasChanges (state (session today evs))).
Proof.
  assert (Hboth : isSaving (state (session today evs)) = false /\
                  isLoading (state (session today evs)) = false).
  { apply (session_invariant
             (fun s => isSaving (state s) = false /\ isLoading (state s) = false)).
    - intros t. split; reflexivity.
    - intros s ev. apply step_resets_spinners. }
  destruct Hboth as [Hsaving Hloading].
  split; [exact Hsaving |]. split; [exact Hloading |].
  unfold saveDisabled. rewrite Hsaving. apply orb_false_r.
Qed.

Lemma dispatch_requests_wellFormed (ev : Event) (st : State) :
  forallb wellFormedRequest (logOf (dispatch ev st)) = true.
Proof.
  assert (Hentries : forall rows : list StudentAttendance.t,
            forallb (fun e => match Entry.remarks e with
                              | None => true
                              | Some _ => false
                              end)
                    (map (fun s => {| Entry.studentId := StudentAttendance.id s;
                                      Entry.status := StudentAttendance.status s;
                                      Entry.remarks := None |}) rows) = true).
  { intros rows. induction rows as [| row rows IH]; [reflexivity | exact IH]. }
  destruct ev as [cr sr | v sr | v sr | v | v | sid status | status | r].
  - destruct cr as [[[| first rest] |] | e], sr as [data | e'];
      unfold_handlers; cbn; split_cases; cbn;
      repeat match goal with H : _ = true |- _ => rewrite H end; auto.
  - destruct sr as [data | e']; unfold_handlers; cbn; split_cases; cbn;
      repeat match goal with H : _ = true |- _ => rewrite H end; auto.
  - destruct sr as [data | e']; unfold_handlers; cbn; split_cases; cbn;
      repeat match goal with H : _ = true |- _ => rewrite H end; auto.
  - reflexivity.
  - reflexivity.
  - reflexivity.
  - reflexivity.
  - destruct r as [value | e];
      unfold_handlers; unfold saveDisabled; cbn; split_cases; cbn;
      rewrite ?Hentries; cbn; auto.
    all: match goal with
         | H : negb (truthy _) = false |- _ =>
             apply negb_false_iff in H; rewrite H
         end;
      repeat match goal with H : truthy _ = true |- _ => rewrite H end;
      reflexivity.
Qed.

Lemma session_requests_wellFormed (today : string) (evs : list Event) :
  forallb wellFormedRequest (effects (session today evs)) = true.
Proof.
  apply (session_invariant
           (fun s => forallb wellFormedRequest (effects s) = true)).
  - intros t. reflexivity.
  - intros s ev Hs. unfold step. cbn [effects].
    rewrite forallb_app, Hs. apply dispatch_requests_wellFormed.
Qed.

Lemma truthy_nonempty (s : string) : truthy s = true -> s <> "".
Proof.
  unfold truthy. intros H. apply negb_true_iff in H.
  apply String.eqb_neq. exact H.
Qed.

(** X12: every save request of a session is complete.  It names a class,
    names a section only when one is selected (never the empty string),
    carries a date, leaves [allowOverride] out and has no remarks. *)
Theorem session_save_requests
  (today : string) (evs : list Event) (req : MarkAttendanceRequest.t) :
  In (MarkAttendance req) (effects (session today evs)) ->
  MarkAttendanceRequest.classId req <> "" /\
  MarkAttendanceRequest.sectionId req <> Some "" /\
  MarkAttendanceRequest.attendanceDate req <> None /\
  MarkAttendanceRequest.allowOverride req = None /\
  Forall (fun e => Entry.remarks e = None) (MarkAttendanceRequest.entries req).
Proof.
  intros Hin.
  pose proof (session_requests_wellFormed today evs) as Hall.
  rewrite forallb_forall in Hall. specialize (Hall _ Hin).
  cbn [wellFormedRequest] in Hall.
  repeat (apply andb_true_iff in Hall; destruct Hall as [Hall ?]).
  split; [apply truthy_nonempty; exact Hall |].
  split.
  { destruct (MarkAttendanceRequest.sectionId req) as [sec |]; [| discriminate].
    intros Heq. injection Heq as ->. discriminate. }
  split; [destruct (MarkAttendanceRequest.attendanceDate req); discriminate |].
  split; [destruct (MarkAttendanceRequest.allowOverride req); [discriminate | reflexivity] |].
  apply Forall_forall. intros e He.
  match goal with
  | H : forallb _ (MarkAttendanceRequest.entries req) = true |- _ =>
      rewrite forallb_forall in H; specialize (H e He)
  end.
  destruct (Entry.remarks e); [discriminate | reflexivity].
Qed.

Lemma session_save_requests_witness :
  let evs := [mounted sampleRoster; StatusChecked "s1" ABSENT; SaveClicked accepted] in
  let req := requestOf (state (session "2026-01-15"
                                 [mounted sampleRoster; StatusChecked "s1" ABSENT])) in
  In (MarkAttendance req) (effects (session "2026-01-15" evs)) /\
  MarkAttendanceRequest.classId req <> "".
Proof.
  cbv zeta.
  assert (Hin : In (MarkAttendance
                      (requestOf (state (session "2026-01-15"
                         [mounted sampleRoster; StatusChecked "s1" ABSENT]))))
                   (effects (session "2026-01-15"
                      [mounted sampleRoster; StatusChecked "s1" ABSENT;
                       SaveClicked accepted])))
    by (vm_compute; right; right; left; reflexivity).
  split; [exact Hin |].
  exact (proj1 (session_save_requests _ _ _ Hin)).
Defined.

(** X13: the roster is never fetched without a class.  Every roster
    request of a session names a class. *)
Theorem session_roster_requests
  (today : string) (evs : list Event) (cls sec : string) :
  In (GetAttendanceStudents cls sec) (effects (session today evs)) ->
  cls <> "".
Proof.
  intros Hin.
  pose proof (session_requests_wellFormed today evs) as Hall.
  rewrite forallb_forall in Hall. specialize (Hall _ Hin).
  apply truthy_nonempty. exact Hall.
Qed.

Lemma session_roster_requests_witness :
  In (GetAttendanceStudents "c1" "") (effects loadedSession) /\ "c1" <> "".
Proof.
  assert (Hin : In (GetAttendanceStudents "c1" "")
                   (effects (session "2026-01-15" [mounted sampleRoster])))
    by (vm_compute; right; left; reflexivity).
  split; [exact Hin |].
  exact (session_roster_requests _ _ _ _ Hin).
Defined.

Lemma step_accepted_le_edits (s : Session) (ev : Event) (n : nat) :
  List.length (submitted (history s))
  + (if hasChanges (state s) then 1 else 0) <= n ->
  List.length (submitted (history (step s ev)))
  + (if hasChanges (state (step s ev)) then 1 else 0)
  <= n + (if isEdit ev then 1 else 0).
Proof.
  destruct s as [[cl cls sec date rows q saving loading flag] h log].
  cbn [state history hasChanges]. intros Hle.
  unfold step. cbn [state history].
  destruct ev as [cr sr | v sr | v sr | v | v | sid status | status | r].
  - destruct cr as [[[| first rest] |] | e], sr as [data | e'];
      unfold_handlers; unfold record, rosterArrived; cbn; split_conditions;
      split_cases; cbn; lia.
  - destruct sr as [data | e'];
      unfold_handlers; unfold record, rosterArrived; cbn; split_conditions;
      split_cases; cbn; lia.
  - destruct sr as [data | e'];
      unfold_handlers; unfold record, rosterArrived; cbn; split_conditions;
      split_cases; cbn; lia.
  - cbn. lia.
  - cbn. lia.
  - unfold_handlers; unfold record, rosterArrived; cbn. destruct flag; lia.
  - unfold_handlers; unfold record, rosterArrived; cbn. destruct flag; lia.
  - destruct flag, saving, r as [value | e];
      unfold_handlers; unfold record, rosterArrived, saveDisabled; cbn;
      split_conditions; split_cases; cbn in *; lia.
Qed.

(** X14: the server never accepts more saves than the user made edits.
    In every session the number of accepted submissions, plus one when
    unsaved changes are pending, is at most the number of status changes
    and quick marks so far. *)
Theorem accepted_saves_le_edits (today : string) (evs : list Event) :
  List.length (submitted (history (session today evs)))
  + (if hasChanges (state (session today evs)) then 1 else 0)
  <= List.length (filter isEdit evs).
Proof.
  induction evs as [| ev evs IH] using rev_ind.
  - cbn. lia.
  - rewrite session_snoc, filter_app, length_app.
    cbn [filter]. pose proof (step_accepted_le_edits _ ev _ IH) as Hstep.
    destruct (isEdit ev); cbn [List.length]; lia.
Qed.

Lemma Forall2_same {A : Type} (P : A -> A -> Prop) (l : list A) :
  (forall x, P x x) -> Forall2 P l l.
Proof.
  intros Hrefl. induction l as [| x l IH]; constructor; auto.
Qed.

Lemma Forall2_map_edit (f : StudentAttendance.t -> StudentAttendance.t)
  (rows sent : list StudentAttendance.t) :
  (forall row, f row = row \/ StudentAttendance.status (f row) <> Some HALF_DAY) ->
  Forall2 (fun row c => StudentAttendance.status row = Some HALF_DAY -> row = c)
          rows sent ->
  Forall2 (fun row c => StudentAttendance.status row = Some HALF_DAY -> row = c)
          (map f rows) sent.
Proof.
  intros Hf Hall. induction Hall as [| row c rows sent Hrow Hrows IH];
    cbn [map]; constructor; [| exact IH].
  destruct (Hf row) as [Hsame | Hnot].
  - rewrite Hsame. exact Hrow.
  - intros Hhalf. contradiction.
Qed.

Lemma step_keeps_halfDayFromServer (s : Session) (ev : Event) :
  offeredByControls ev = true ->
  halfDayFromServer s -> halfDayFromServer (step s ev).
Proof.
  destruct s as [st h log]. unfold halfDayFromServer, step.
  cbn [state history]. intros Hoffered Hinv.
  assert (Hrefl : forall rows : list StudentAttendance.t,
            Forall2 (fun row c => StudentAttendance.status row = Some HALF_DAY -> row = c)
                    rows rows)
    by (intros rows; apply Forall2_same; auto).
  destruct ev as [cr sr | v sr | v sr | v | v | sid status | status | r].
  - destruct cr as [[[| first rest] |] | e], sr as [data | e'];
      unfold_handlers; unfold record, rosterArrived; cbn; split_cases; auto.
  - destruct sr as [data | e'];
      unfold_handlers; unfold record, rosterArrived; cbn; split_cases; auto.
  - destruct sr as [data | e'];
      unfold_handlers; unfold record, rosterArrived; cbn; split_cases; auto.
  - exact Hinv.
  - exact Hinv.
  - cbn [dispatch]. rewrite handleStatusChange_run.
    unfold record, rosterArrived, stateOf, logOf.
    cbn. apply Forall2_map_edit; [| exact Hinv].
    intros row. destruct (String.eqb (StudentAttendance.id row) sid); [| left; reflexivity].
    right. destruct status; cbn; discriminate.
  - cbn [dispatch]. rewrite handleMarkAll_run.
    unfold record, rosterArrived, stateOf, logOf.
    cbn. apply Forall2_map_edit; [| exact Hinv].
    intros row. right. destruct status; cbn; discriminate.
  - destruct r as [value | e];
      unfold_handlers; unfold record, rosterArrived, saveDisabled; cbn;
      split_cases; auto.
Qed.

(** X15: the controls of the page cannot produce HALF_DAY.  In a session
    whose status changes and quick marks come from the controls (the
    checkboxes offer PRESENT, ABSENT, LATE and EXCUSED, the quick-mark
    buttons PRESENT and ABSENT), a row that reads HALF_DAY is, unchanged,
    the row the server last confirmed at that position. *)
Theorem halfDay_only_from_server (today : string) (evs : list Event) :
  forallb offeredByControls evs = true ->
  halfDayFromServer (session today evs).
Proof.
  induction evs as [| ev evs IH] using rev_ind; intros Hall.
  - constructor.
  - rewrite forallb_app in Hall. apply andb_true_iff in Hall.
    destruct Hall as [Hevs Hev]. cbn in Hev. rewrite andb_true_r in Hev.
    rewrite session_snoc. apply step_keeps_halfDayFromServer; auto.
Qed.

Lemma halfDay_only_from_server_witness :
  let evs := [mounted sampleRoster; StatusChecked "s1" LATE; MarkAllClicked ABSENT] in
  forallb offeredByControls evs = true /\
  halfDayFromServer (session "2026-01-15" evs).
Proof.
  cbv zeta. split; [reflexivity |].
  apply (halfDay_only_from_server "2026-01-15"
           [mounted sampleRoster; StatusChecked "s1" LATE; MarkAllClicked ABSENT]).
  reflexivity.
Defined.

(** * Selecting a class, mounting, changing the date *)

(** X16: selecting a class.  The class becomes the selected one and the
    section is cleared.  The roster is fetched, for the class without a
    section, unless the class is the empty choice or nothing changed
    (the same class with no section selected); selecting the current
    class again therefore does not reload the roster. *)
Theorem class_selection_fetches
  (value : string) (response : Awaited (option (list AttendanceStudent.t)))
  (st : State) :
  let r := dispatch (ClassSelected value response) st in
  selectedClassId (stateOf r) = value /\
  selectedSectionId (stateOf r) = "" /\
  filter isRequest (logOf r) =
    (if (String.eqb (selectedClassId st) value
         && String.eqb (selectedSectionId st) "")
        || negb (truthy value)
     then []
     else [GetAttendanceStudents value ""]).
Proof.
  destruct response as [data | e]; unfold_handlers; cbn;
    destruct (String.eqb (selectedClassId st) value);
    destruct (String.eqb (selectedSectionId st) "");
    destruct (truthy value); cbn; repeat split.
Qed.

(** X17: a class switch whose roster fetch fails.  The new class is
    selected, the failure is logged and shown, and the rows of the
    previous class stay in the buffer with the change flag as it was; a
    click on an enabled Save button then posts those rows under the new
    class. *)
Theorem failed_class_switch_keeps_rows
  (value : string) (e : Thrown) (st : State) :
  truthy value = true ->
  selectedClassId st <> value ->
  let r := dispatch (ClassSelected value (Rejected e)) st in
  selectedClassId (stateOf r) = value /\
  students (stateOf r) = students st /\
  hasChanges (stateOf r) = hasChanges st /\
  logOf r = [GetAttendanceStudents value "";
             ConsoleError "Failed to load students:" e;
             ToastError (Text "Failed to load students")] /\
  (forall response,
     saveDisabled st = false ->
     exists req,
       sentRequests (logOf (clickSave response (stateOf r))) = [req] /\
       MarkAttendanceRequest.classId req = value /\
       MarkAttendanceRequest.entries req = map entryOf (students st)).
Proof.
  intros Hvalue Hother r.
  assert (Hr : r = (tt,
                    mkState (classes st) value "" (attendanceDate st) (students st)
                      (searchQuery st) (isSaving st) false (hasChanges st),
                    [GetAttendanceStudents value "";
                     ConsoleError "Failed to load students:" e;
                     ToastError (Text "Failed to load students")])).
  { subst r. unfold_handlers. cbn.
    apply String.eqb_neq in Hother. rewrite Hother, Hvalue. reflexivity. }
  rewrite Hr. unfold stateOf, logOf. cbn [fst snd selectedClassId students hasChanges].
  repeat split.
  intros response Henabled.
  match goal with
  | |- context [clickSave response ?s] => set (st' := s)
  end.
  assert (Henabled' : saveDisabled st' = false) by exact Henabled.
  assert (Hcls' : truthy (selectedClassId st') = true) by exact Hvalue.
  exists (requestOf st').
  rewrite (clickSave_enabled response st' Henabled').
  split; [apply (handleSaveAttendance_sends response st' Hcls') |].
  split; reflexivity.
Qed.

Lemma failed_class_switch_keeps_rows_witness :
  let st := stateOf (handleStatusChange "s1" ABSENT (state loadedSession)) in
  truthy "c2" = true /\
  selectedClassId st <> "c2" /\
  students (stateOf (dispatch (ClassSelected "c2" (Rejected (OtherThrown "offline"))) st))
  = students st.
Proof.
  cbv zeta.
  assert (Hother : selectedClassId
                     (stateOf (handleStatusChange "s1" ABSENT (state loadedSession)))
                   <> "c2") by (vm_compute; discriminate).
  split; [reflexivity |]. split; [exact Hother |].
  apply (failed_class_switch_keeps_rows "c2" (OtherThrown "offline")
           (stateOf (handleStatusChange "s1" ABSENT (state loadedSession)))
           eq_refl Hother).
Defined.

(** X18: mounting without classes.  When the class list cannot be
    fetched, or comes back missing or empty, the component stays in its
    initial state: no class is selected and no roster is requested; and
    whatever is marked afterwards, Save sends nothing. *)
Theorem mount_without_classes
  (today : string) (classesResponse : Awaited (option (list ClassInfo)))
  (studentsResponse : Awaited (option (list AttendanceStudent.t))) :
  classesOf classesResponse = [] ->
  let r := dispatch (Mounted classesResponse studentsResponse) (initialState today) in
  stateOf r = initialState today /\
  filter isRequest (logOf r) = [GetAssignedClasses] /\
  (forall status response,
     sentRequests (logOf (clickSave response (stateOf (handleMarkAll status (stateOf r)))))
     = []).
Proof.
  intros Hnone r.
  assert (Hstate : stateOf r = initialState today /\
                   filter isRequest (logOf r) = [GetAssignedClasses]).
  { subst r. destruct classesResponse as [[[| first rest] |] | e];
      try discriminate Hnone; unfold_handlers; cbn; split; reflexivity. }
  destruct Hstate as [Hstate Hlog].
  split; [exact Hstate |]. split; [exact Hlog |].
  intros status response. rewrite Hstate.
  destruct response; reflexivity.
Qed.

Lemma mount_without_classes_witness :
  classesOf (Rejected (OtherThrown "offline")) = [] /\
  stateOf (dispatch (Mounted (Rejected (OtherThrown "offline"))
                       (Resolved (Some sampleRoster)))
             (initialState "2026-01-15"))
  = initialState "2026-01-15".
Proof.
  split; [reflexivity |].
  apply (mount_without_classes "2026-01-15" (Rejected (OtherThrown "offline"))
           (Resolved (Some sampleRoster)) eq_refl).
Defined.

(** X19: mounting with classes.  When the class list arrives with a first
    class that has an id, that class is selected, no section is, and the
    roster of that class is the one request that follows; when that
    roster arrives the buffer holds its rows. *)
Theorem mount_selects_first_class
  (today : string) (first : ClassInfo) (rest : list ClassInfo)
  (roster : option (list AttendanceStudent.t)) :
  truthy (classId first) = true ->
  let r := dispatch (Mounted (Resolved (Some (first :: rest))) (Resolved roster))
             (initialState today) in
  classes (stateOf r) = first :: rest /\
  selectedClassId (stateOf r) = classId first /\
  selectedSectionId (stateOf r) = "" /\
  filter isRequest (logOf r) =
    [GetAssignedClasses; GetAttendanceStudents (classId first) ""] /\
  students (stateOf r) = map rowOf (orEmpty roster) /\
  hasChanges (stateOf r) = false.
Proof.
  intros Hfirst r. subst r.
  destruct first as [cid cname csections]. cbn [classId] in *.
  destruct cid as [| a rest']; [discriminate Hfirst |].
  unfold_handlers. cbn. repeat split.
Qed.

Lemma mount_selects_first_class_witness :
  truthy "c1" = true /\
  selectedClassId (state loadedSession) = "c1".
Proof.
  split; [reflexivity |].
  apply (mount_selects_first_class "2026-01-15"
           {| classId := "c1"; className := "Grade 5"; sections := [] |}
           [ {| classId := "c2"; className := "Grade 6"; sections := [] |} ]
           (Some sampleRoster) eq_refl).
Defined.

(** X20: changing the date.  It fetches nothing and changes neither the
    rows nor the change flag; the next save request carries the new date
    and is otherwise the request it would have been.  With no unsaved
    changes the Save button stays disabled, so the marks just saved
    cannot be sent for another date without touching a row. *)
Theorem date_change_alone
  (value : string) (response : Awaited MarkAttendanceResponse.t) (st : State) :
  let r := dispatch (DateChanged value) st in
  logOf r = [] /\
  students (stateOf r) = students st /\
  hasChanges (stateOf r) = hasChanges st /\
  MarkAttendanceRequest.attendanceDate (requestOf (stateOf r)) = Some value /\
  MarkAttendanceRequest.classId (requestOf (stateOf r)) =
    MarkAttendanceRequest.classId (requestOf st) /\
  MarkAttendanceRequest.sectionId (requestOf (stateOf r)) =
    MarkAttendanceRequest.sectionId (requestOf st) /\
  MarkAttendanceRequest.entries (requestOf (stateOf r)) =
    MarkAttendanceRequest.entries (requestOf st) /\
  (hasChanges st = false ->
   clickSave response (stateOf r) = (tt, stateOf r, [])).
Proof.
  cbv zeta. cbn [dispatch]. unfold setAttendanceDate, stateOf, logOf.
  cbn [fst snd]. repeat split.
  intros Hflag. apply clickSave_disabled. unfold saveDisabled.
  cbn [hasChanges]. rewrite Hflag. reflexivity.
Qed.

Lemma date_change_alone_witness :
  hasChanges (state loadedSession) = false /\
  clickSave accepted (stateOf (dispatch (DateChanged "2026-01-16") (state loadedSession)))
  = (tt, stateOf (dispatch (DateChanged "2026-01-16") (state loadedSession)), []).
Proof.
  split; [reflexivity |].
  apply (date_change_alone "2026-01-16" accepted (state loadedSession)).
  reflexivity.
Defined.

(** X21: selecting a section.  When the choice differs from the selected
    section and a class is selected, the roster is fetched once, for the
    selected class and the chosen section, and a later save request names
    that section; the choice "All sections" (the empty value) makes the
    save request carry no section at all. *)
Theorem section_selection_fetches
  (value : string) (response : Awaited (option (list AttendanceStudent.t)))
  (st : State) :
  selectedSectionId st <> value ->
  truthy (selectedClassId st) = true ->
  let r := dispatch (SectionSelected value response) st in
  selectedClassId (stateOf r) = selectedClassId st /\
  filter isRequest (logOf r) = [GetAttendanceStudents (selectedClassId st) value] /\
  MarkAttendanceRequest.sectionId (requestOf (stateOf r)) =
    (if truthy value then Some value else None).
Proof.
  intros Hother Hcls r. subst r.
  apply String.eqb_neq in Hother.
  destruct response as [data | e]; unfold_handlers; cbn;
    rewrite String.eqb_refl, Hother, Hcls; cbn; repeat split.
Qed.

Lemma section_selection_fetches_witness :
  selectedSectionId (state loadedSession) <> "sec-a" /\
  truthy (selectedClassId (state loadedSession)) = true /\
  filter isRequest
    (logOf (dispatch (SectionSelected "sec-a" (Resolved (Some sampleRoster)))
              (state loadedSession)))
  = [GetAttendanceStudents "c1" "sec-a"].
Proof.
  assert (Hother : selectedSectionId (state loadedSession) <> "sec-a")
    by (vm_compute; discriminate).
  split; [exact Hother |]. split; [reflexivity |].
  apply (section_selection_fetches "sec-a" (Resolved (Some sampleRoster))
           (state loadedSession) Hother eq_refl).
Defined.

Lemma Forall2_map_same_student (f : StudentAttendance.t -> StudentAttendance.t)
  (rows sent : list StudentAttendance.t) :
  (forall row, sameStudent (f row) row) ->
  Forall2 sameStudent rows sent ->
  Forall2 sameStudent (map f rows) sent.
Proof.
  intros Hf Hall. induction Hall as [| row c rows sent Hrow Hrows IH];
    cbn [map]; constructor; [| exact IH].
  destruct (Hf row) as [H1 [H2 [H3 H4]]]. destruct Hrow as [K1 [K2 [K3 K4]]].
  unfold sameStudent. repeat split; congruence.
Qed.

Lemma step_keeps_same_students (s : Session) (ev : Event) :
  Forall2 sameStudent (students (state s)) (confirmed (history s)) ->
  Forall2 sameStudent (students (state (step s ev))) (confirmed (history (step s ev))).
Proof.
  destruct s as [st h log]. unfold step. cbn [state history]. intros Hinv.
  assert (Hrefl : forall rows : list StudentAttendance.t,
            Forall2 sameStudent rows rows)
    by (intros rows; apply Forall2_same; intros x; unfold sameStudent; auto).
  destruct ev as [cr sr | v sr | v sr | v | v | sid status | status | r].
  - destruct cr as [[[| first rest] |] | e], sr as [data | e'];
      unfold_handlers; unfold record, rosterArrived; cbn; split_cases; auto.
  - destruct sr as [data | e'];
      unfold_handlers; unfold record, rosterArrived; cbn; split_cases; auto.
  - destruct sr as [data | e'];
      unfold_handlers; unfold record, rosterArrived; cbn; split_cases; auto.
  - exact Hinv.
  - exact Hinv.
  - cbn [dispatch]. rewrite handleStatusChange_run.
    unfold record, rosterArrived, stateOf, logOf.
    cbn. apply Forall2_map_same_student; [| exact Hinv].
    intros row. unfold sameStudent.
    destruct (String.eqb (StudentAttendance.id row) sid); auto.
  - cbn [dispatch]. rewrite handleMarkAll_run.
    unfold record, rosterArrived, stateOf, logOf.
    cbn. apply Forall2_map_same_student; [| exact Hinv].
    intros row. unfold sameStudent. auto.
  - destruct r as [value | e];
      unfold_handlers; unfold record, rosterArrived, saveDisabled; cbn;
      split_cases; auto.
Qed.

(** X22: edits and saves never add, drop, reorder or rename a row.  In
    every session the buffer holds, position by position, the students
    the server last confirmed: same id, roll number, first and last name;
    only the status of a row can differ. *)
Theorem session_keeps_roster (today : string) (evs : list Event) :
  Forall2 sameStudent
    (students (state (session today evs)))
    (confirmed (history (session today evs))).
Proof.
  apply (session_invariant
           (fun s => Forall2 sameStudent (students (state s)) (confirmed (history s)))).
  - intros t. constructor.
  - apply step_keeps_same_students.
Qed.

(** * The assignments page *)

Section AssignmentsFacts.

Variables Assignment Statistics JsNumber : Type.
Variable parseFloat : string -> JsNumber.
Variable toISOString : string -> option string.

Ltac unfold_page :=
  unfold Assignments.handleCreateAssignment, Assignments.chooseClass,
    Assignments.loadData, Assignments.errorMessage,
    Assignments.setAssignments, Assignments.setLoading, Assignments.setStatistics,
    Assignments.setIsCreateDialogOpen, Assignments.setIsCreating,
    Assignments.setNewAssignment, Assignments.setClasses,
    Assignments.perform, Assignments.read, Assignments.bind, Assignments.ret,
    Assignments.stateOf, Assignments.logOf, Assignments.created,
    Assignments.complete in *.

Lemma handleCreateAssignment_incomplete
  (made : Awaited Assignment)
  (reloaded : Awaited (Assignments.Loaded Assignment Statistics))
  (st : Assignments.State Assignment Statistics) :
  Assignments.complete (Assignments.newAssignment st) = false ->
  Assignments.handleCreateAssignment parseFloat toISOString made reloaded st =
  (tt, st, [Assignments.ToastError (Text "Please fill all required fields")]).
Proof.
  unfold_page. intros Hform.
  destruct (truthy (Assignments.title (Assignments.newAssignment st)));
    destruct (truthy (Assignments.classId (Assignments.newAssignment st)));
    destruct (truthy (Assignments.subjectId (Assignments.newAssignment st)));
    destruct (truthy (Assignments.totalMarks (Assignments.newAssignment st)));
    try discriminate Hform; reflexivity.
Qed.

Ltac split_form st :=
  destruct (truthy (Assignments.title (Assignments.newAssignment st))) eqn:Htitle;
  destruct (truthy (Assignments.classId (Assignments.newAssignment st))) eqn:Hclass;
  destruct (truthy (Assignments.subjectId (Assignments.newAssignment st))) eqn:Hsubject;
  destruct (truthy (Assignments.totalMarks (Assignments.newAssignment st))) eqn:Hmarks.

(** X23: a create request is sent at most once per click and only from a
    complete form.  A request that goes out carries the title, class and
    subject of the form, none of them empty, and the parsed total marks;
    it names a section and a description only when the form has one, and
    a due date only when the form has one, as [toISOString] renders it. *)
Theorem create_request_complete
  (made : Awaited Assignment)
  (reloaded : Awaited (Assignments.Loaded Assignment Statistics))
  (st : Assignments.State Assignment Statistics)
  (req : Assignments.CreateAssignmentRequest JsNumber) :
  In req (Assignments.created
            (Assignments.logOf
               (Assignments.handleCreateAssignment parseFloat toISOString
                  made reloaded st))) ->
  let form := Assignments.newAssignment st in
  Assignments.created
    (Assignments.logOf
       (Assignments.handleCreateAssignment parseFloat toISOString made reloaded st))
    = [req] /\
  Assignments.reqTitle req = Assignments.title form /\
  Assignments.reqTitle req <> "" /\
  Assignments.reqClassId req = Assignments.classId form /\
  Assignments.reqClassId req <> "" /\
  Assignments.reqSubjectId req = Assignments.subjectId form /\
  Assignments.reqSubjectId req <> "" /\
  Assignments.totalMarks form <> "" /\
  Assignments.reqTotalMarks req = parseFloat (Assignments.totalMarks form) /\
  Assignments.reqSectionId req =
    (if truthy (Assignments.sectionId form)
     then Some (Assignments.sectionId form) else None) /\
  Assignments.reqDescription req =
    (if truthy (Assignments.description form)
     then Some (Assignments.description form) else None) /\
  Assignments.reqDueDate req =
    (if truthy (Assignments.dueDate form)
     then toISOString (Assignments.dueDate form) else None).
Proof.
  cbv zeta. unfold_page. split_form st; cbn;
    try (intros Hin; contradiction).
  destruct (truthy (Assignments.dueDate (Assignments.newAssignment st)));
    [destruct (toISOString (Assignments.dueDate (Assignments.newAssignment st)))
       as [iso |] |];
    cbn; destruct made as [a | e]; try destruct reloaded as [res | e'];
    cbn; intros Hin; try contradiction;
    destruct Hin as [<- | []]; cbn;
    repeat split; apply truthy_nonempty; assumption.
Qed.

(** X24: a rejected create loses nothing.  When the service rejects the
    request, or the due date is no date so that nothing is sent, the form
    keeps what was typed, the dialog stays as it was, the lists are
    untouched, nothing is reloaded and the Create button is enabled
    again. *)
Theorem failed_create_keeps_form
  (made : Awaited Assignment)
  (reloaded : Awaited (Assignments.Loaded Assignment Statistics))
  (st : Assignments.State Assignment Statistics) :
  Assignments.complete (Assignments.newAssignment st) = true ->
  (isResolved made = false \/
   (truthy (Assignments.dueDate (Assignments.newAssignment st)) = true /\
    toISOString (Assignments.dueDate (Assignments.newAssignment st)) = None)) ->
  let r := Assignments.handleCreateAssignment parseFloat toISOString made reloaded st in
  Assignments.stateOf r =
    Assignments.mkState Assignment Statistics
      (Assignments.assignments st) (Assignments.loading st)
      (Assignments.statistics st) (Assignments.isCreateDialogOpen st)
      false (Assignments.newAssignment st) (Assignments.classes st) /\
  List.length (filter Assignments.isRequest (Assignments.logOf r)) <= 1 /\
  (toISOString (Assignments.dueDate (Assignments.newAssignment st)) = None ->
   truthy (Assignments.dueDate (Assignments.newAssignment st)) = true ->
   filter Assignments.isRequest (Assignments.logOf r) = []).
Proof.
  intros Hform Hfail. cbv zeta. unfold_page. revert Hform.
  split_form st; cbn; try discriminate. intros _.
  destruct Hfail as [Hmade | [Hdue Hiso]].
  - destruct made as [a | e]; [discriminate Hmade |].
    destruct (truthy (Assignments.dueDate (Assignments.newAssignment st)));
      [destruct (toISOString (Assignments.dueDate (Assignments.newAssignment st)))
         as [iso |] |];
      cbn; repeat split; auto; intros; discriminate.
  - rewrite Hdue, Hiso. cbn. repeat split; auto.
Qed.

(** X25: an accepted create.  The dialog closes, the form is blank again
    and the Create button and the page leave their busy state; after the
    create request the page asks for the assignments (page 1, 50 per
    page), the statistics and the classes, and takes all three from the
    answer when they arrive together, or keeps all three as they were
    when the reload fails. *)
Theorem accepted_create_resets_and_reloads
  (a : Assignment)
  (reloaded : Awaited (Assignments.Loaded Assignment Statistics))
  (st : Assignments.State Assignment Statistics) :
  Assignments.complete (Assignments.newAssignment st) = true ->
  (truthy (Assignments.dueDate (Assignments.newAssignment st)) = true ->
   toISOString (Assignments.dueDate (Assignments.newAssignment st)) <> None) ->
  let r := Assignments.handleCreateAssignment parseFloat toISOString
             (Resolved a) reloaded st in
  Assignments.newAssignment (Assignments.stateOf r) = Assignments.blank /\
  Assignments.isCreateDialogOpen (Assignments.stateOf r) = false /\
  Assignments.isCreating (Assignments.stateOf r) = false /\
  Assignments.loading (Assignments.stateOf r) = false /\
  (exists req,
     filter Assignments.isRequest (Assignments.logOf r) =
       [Assignments.CreateAssignment req;
        Assignments.GetAssignments 1 50;
        Assignments.GetAssignmentStatistics;
        Assignments.GetAssignedClasses]) /\
  match reloaded with
  | Resolved res =>
      Assignments.assignments (Assignments.stateOf r) =
        orEmpty (Assignments.assignmentsData res) /\
      Assignments.statistics (Assignments.stateOf r) =
        Assignments.statisticsData res /\
      Assignments.classes (Assignments.stateOf r) =
        orEmpty (Assignments.classesData res)
  | Rejected _ =>
      Assignments.assignments (Assignments.stateOf r) = Assignments.assignments st /\
      Assignments.statistics (Assignments.stateOf r) = Assignments.statistics st /\
      Assignments.classes (Assignments.stateOf r) = Assignments.classes st
  end.
Proof.
  intros Hform Hdate. cbv zeta. unfold_page. revert Hform.
  split_form st; cbn; try discriminate. intros _.
  destruct (truthy (Assignments.dueDate (Assignments.newAssignment st)));
    [destruct (toISOString (Assignments.dueDate (Assignments.newAssignment st)))
       as [iso |]; [| exfalso; apply Hdate; reflexivity] |];
    destruct reloaded as [res | e]; cbn;
    repeat split; eexists; reflexivity.
Qed.

(** X26: choosing a class in the dialog.  The form takes the chosen
    class and, as its subject, the first subject of that class: of the
    first entry of [classes] with that id.  When no entry has that id, or
    the entry lists no subject, the subject is empty.  Nothing else in
    the form or the page changes and nothing is sent.  With an empty
    subject Create is refused: nothing is sent, the form is kept and the
    user is asked to fill all required fields. *)
Theorem chooseClass_takes_first_subject
  (value : string) (made : Awaited Assignment)
  (reloaded : Awaited (Assignments.Loaded Assignment Statistics))
  (st : Assignments.State Assignment Statistics) :
  let r := Assignments.chooseClass (JsNumber := JsNumber) value st in
  let st' := Assignments.stateOf r in
  let form := Assignments.newAssignment st in
  let chosen :=
    find (fun c => String.eqb (Assignments.classIdOf c) value)
         (Assignments.classes st) in
  Assignments.logOf r = [] /\
  st' = Assignments.mkState Assignment Statistics
          (Assignments.assignments st) (Assignments.loading st)
          (Assignments.statistics st) (Assignments.isCreateDialogOpen st)
          (Assignments.isCreating st) (Assignments.newAssignment st')
          (Assignments.classes st) /\
  Assignments.newAssignment st' =
    Assignments.mkNewAssignment value (Assignments.sectionId form)
      (Assignments.subjectId (Assignments.newAssignment st'))
      (Assignments.title form) (Assignments.dueDate form)
      (Assignments.totalMarks form) (Assignments.description form) /\
  (forall c first rest,
     chosen = Some c ->
     Assignments.subjects c = Some (first :: rest) ->
     Assignments.subjectId (Assignments.newAssignment st') =
       Assignments.subjectIdOf first) /\
  (forall c,
     chosen = Some c ->
     Assignments.subjects c = None \/ Assignments.subjects c = Some [] ->
     Assignments.subjectId (Assignments.newAssignment st') = "") /\
  (chosen = None ->
   Assignments.subjectId (Assignments.newAssignment st') = "") /\
  (Assignments.subjectId (Assignments.newAssignment st') = "" ->
   Assignments.handleCreateAssignment parseFloat toISOString made reloaded st' =
     (tt, st', [Assignments.ToastError (Text "Please fill all required fields")])).
Proof.
  cbv zeta.
  assert (Hsubject :
    Assignments.subjectId
      (Assignments.newAssignment
         (Assignments.stateOf (Assignments.chooseClass (JsNumber := JsNumber) value st)))
    = Assignments.firstSubjectOf value (Assignments.classes st))
    by reflexivity.
  split; [reflexivity |]. split; [reflexivity |]. split; [reflexivity |].
  rewrite Hsubject. unfold Assignments.firstSubjectOf.
  split; [| split; [| split]].
  - intros c first rest Hfound Hsubjects. rewrite Hfound, Hsubjects. reflexivity.
  - intros c Hfound [Hnone | Hnone]; rewrite Hfound, Hnone; reflexivity.
  - intros Hfound. rewrite Hfound. reflexivity.
  - intros Hempty. apply handleCreateAssignment_incomplete.
    unfold Assignments.complete.
    replace (Assignments.subjectId
               (Assignments.newAssignment
                  (Assignments.stateOf
                     (Assignments.chooseClass (JsNumber := JsNumber) value st))))
      with "" by (rewrite Hsubject; symmetry; exact Hempty).
    cbn. rewrite andb_false_r. reflexivity.
Qed.

End AssignmentsFacts.

Lemma create_request_complete_witness :
  let st := Assignments.mkState unit unit [] false None true false
              (Assignments.mkNewAssignment "c1" "" "math" "Homework 1" "" "20" "")
              [] in
  let req := Assignments.mkRequest string "c1" None "math" "Homework 1" None None "20" in
  In req (Assignments.created
            (Assignments.logOf
               (Assignments.handleCreateAssignment (fun s => s) (fun s => Some s)
                  (Resolved tt) (Rejected (OtherThrown "offline")) st))) /\
  Assignments.reqTitle req <> "".
Proof.
  cbv zeta.
  assert (Hin : In (Assignments.mkRequest string "c1" None "math" "Homework 1" None None "20")
                   (Assignments.created
                      (Assignments.logOf
                         (Assignments.handleCreateAssignment (fun s => s) (fun s => Some s)
                            (Resolved tt) (Rejected (OtherThrown "offline"))
                            (Assignments.mkState unit unit [] false None true false
                               (Assignments.mkNewAssignment "c1" "" "math" "Homework 1" "" "20" "")
                               [])))))
    by (vm_compute; left; reflexivity).
  split; [exact Hin |].
  exact (proj1 (proj2 (proj2 (create_request_complete unit unit string (fun s => s)
           (fun s => Some s) _ _ _ _ Hin)))).
Defined.

Lemma failed_create_keeps_form_witness :
  let st := Assignments.mkState unit unit [] false None true false
              (Assignments.mkNewAssignment "c1" "" "math" "Homework 1" "soon" "20" "")
              [] in
  Assignments.complete (Assignments.newAssignment st) = true /\
  Assignments.newAssignment
    (Assignments.stateOf
       (Assignments.handleCreateAssignment (JsNumber := string) (fun s => s) (fun _ => None)
          (Resolved tt) (Rejected (OtherThrown "offline")) st))
  = Assignments.newAssignment st.
Proof.
  cbv zeta. split; [reflexivity |].
  rewrite (proj1 (failed_create_keeps_form unit unit string (fun s => s) (fun _ => None)
                    (Resolved tt) (Rejected (OtherThrown "offline"))
                    (Assignments.mkState unit unit [] false None true false
                       (Assignments.mkNewAssignment "c1" "" "math" "Homework 1" "soon" "20" "")
                       [])
                    eq_refl (or_intror (conj eq_refl eq_refl)))).
  reflexivity.
Defined.

Lemma accepted_create_resets_and_reloads_witness :
  let st := Assignments.mkState unit unit [] false None true false
              (Assignments.mkNewAssignment "c1" "" "math" "Homework 1" "" "20" "")
              [] in
  Assignments.complete (Assignments.newAssignment st) = true /\
  Assignments.newAssignment
    (Assignments.stateOf
       (Assignments.handleCreateAssignment (JsNumber := string) (fun s => s) (fun s => Some s)
          (Resolved tt) (Rejected (OtherThrown "offline")) st))
  = Assignments.blank.
Proof.
  cbv zeta. split; [reflexivity |].
  apply (accepted_create_resets_and_reloads unit unit string (fun s => s)
           (fun s => Some s) tt (Rejected (OtherThrown "offline"))
           (Assignments.mkState unit unit [] false None true false
              (Assignments.mkNewAssignment "c1" "" "math" "Homework 1" "" "20" "")
              [])
           eq_refl).
  intros _. discriminate.
Defined.

Lemma chooseClass_takes_first_subject_witness :
  let maths := Assignments.Build_SubjectInfo "math" "Mathematics" in
  let grade5 := Assignments.Build_ClassEntry "c1" "Grade 5"
                  (Some [maths; Assignments.Build_SubjectInfo "sci" "Science"]) in
  let st := Assignments.mkState unit unit [] false None true false
              (Assignments.mkNewAssignment "" "" "" "Homework 1" "" "20" "")
              [ Assignments.Build_ClassEntry "c0" "Grade 4" None; grade5 ] in
  find (fun c => String.eqb (Assignments.classIdOf c) "c1") (Assignments.classes st)
    = Some grade5 /\
  Assignments.subjectId
    (Assignments.newAssignment
       (Assignments.stateOf (Assignments.chooseClass (JsNumber := string) "c1" st)))
  = "math".
Proof.
  cbv zeta. split; [reflexivity |].
  exact (proj1 (proj2 (proj2 (proj2
           (chooseClass_takes_first_subject unit unit string (fun s => s)
              (fun s => Some s) "c1" (Resolved tt) (Rejected (OtherThrown "offline"))
              (Assignments.mkState unit unit [] false None true false
                 (Assignments.mkNewAssignment "" "" "" "Homework 1" "" "20" "")
                 [ Assignments.Build_ClassEntry "c0" "Grade 4" None;
                   Assignments.Build_ClassEntry "c1" "Grade 5"
                     (Some [Assignments.Build_SubjectInfo "math" "Mathematics";
                            Assignments.Build_SubjectInfo "sci" "Science"]) ])))))
           _ _ _ eq_refl eq_refl).
Defined.
